(** * The databases plugin of Flipper: view-state store, fetch orchestrator,
      query execution and row editing

    A shallow embedding of [desktop/plugins/public/databases/index.tsx].
    The plugin keeps one state object in a reactive store.  User actions and
    the responses of the remote client change the state through the update
    functions of [plugin]; a subscriber reacts to every change and issues the
    remote fetches that are due.

    JavaScript numbers are integers of [Z] here (the counters, ids and row
    offsets of the plugin; [NaN] and fractions are left out), arrays are
    lists, and the two absent values of JavaScript, [null] and [undefined],
    are kept apart where the code can produce both.  Objects that the code
    shares and writes in place, the query objects and the favorites array of
    the state, are modelled with their sharing, and with the freezing that
    an [update] of the store puts on them. *)

From stdpp Require Import base decidable option list strings sorting.
From Stdlib Require Import ZArith Lia Sorted Ascii.

Local Open Scope Z_scope.

(** ** JavaScript helpers *)

(** A handler either returns or throws; the only exception the modelled code
    raises is the [TypeError] of a property read on [undefined]. *)
Inductive JsError := TypeError.

Inductive Completion (A : Type) :=
| Returned (a : A)
| Thrown (e : JsError).
Arguments Returned {A} a.
Arguments Thrown {A} e.

#[global] Instance completion_ret : MRet Completion := fun A a => Returned a.

#[global] Instance completion_bind : MBind Completion := fun A B k c =>
  match c with
  | Returned a => k a
  | Thrown e => Thrown e
  end.

(** [o.prop] where [o] may be [undefined]. *)
Definition deref {A} (o : option A) : Completion A :=
  match o with
  | Some a => Returned a
  | None => Thrown TypeError
  end.

(** [arr[i]]: [undefined] outside the array, also for a negative index. *)
Definition js_index {A} (l : list A) (i : Z) : option A :=
  if bool_decide (0 <= i) then l !! Z.to_nat i else None.

(** [arr.indexOf(x)] on an array of strings. *)
Fixpoint indexOf_from (x : string) (l : list string) (n : Z) : Z :=
  match l with
  | [] => -1
  | y :: l' => if bool_decide (y = x) then n else indexOf_from x l' (n + 1)
  end.

Definition indexOf (l : list string) (x : string) : Z := indexOf_from x l 0.

(** [arr.includes(x)]. *)
Definition includes (l : list string) (x : string) : bool := bool_decide (x ∈ l).

(** [arr.splice(i, 1)] for an index [i] found by [indexOf]. *)
Definition splice1 {A} (l : list A) (i : Z) : list A := delete (Z.to_nat i) l.

(** A cell of an array of values; [None] is a hole, read as [undefined]. *)
Definition Cell (V : Type) := option V.

(** [arr[i] = v]: inside the array the element is replaced, beyond its end
    JavaScript extends the array and leaves holes in between. *)
Definition js_array_set {V} (l : list (Cell V)) (i : nat) (v : V) : list (Cell V) :=
  if bool_decide (i < length l)%nat then <[i := Some v]> l
  else l ++ replicate (i - length l)%nat None ++ [Some v].

(** The keys of an object that are array indices: the decimal numerals
    without a leading zero of the integers from 0 to 2^32 - 2. *)
Definition digit (a : ascii) : option N :=
  let n := N_of_ascii a in
  if ((48 <=? n) && (n <=? 57))%N then Some (n - 48)%N else None.

Fixpoint numeral (s : string) (acc : N) : option N :=
  match s with
  | EmptyString => Some acc
  | String a s' => d ← digit a; numeral s' (10 * acc + d)%N
  end.

Definition arrayIndex (k : string) : option N :=
  match k with
  | EmptyString => None
  | String a rest =>
      if bool_decide (a = "0"%char)
      then (if bool_decide (rest = EmptyString) then Some 0%N else None)
      else n ← numeral k 0; if (n <? 2 ^ 32 - 1)%N then Some n else None
  end.

(** An object used as a map is the list of its entries in the order in which
    JavaScript enumerates them: the keys that are array indices first, in
    ascending order, then the other keys in the order of their insertion. *)
Fixpoint obj_replace {V} (o : list (string * V)) (k : string) (v : V) : list (string * V) :=
  match o with
  | [] => []
  | (k', v') :: o' =>
      if bool_decide (k' = k) then (k, v) :: o' else (k', v') :: obj_replace o' k v
  end.

Fixpoint obj_add_index {V} (o : list (string * V)) (n : N) (k : string) (v : V)
    : list (string * V) :=
  match o with
  | [] => [(k, v)]
  | (k', v') :: o' =>
      match arrayIndex k' with
      | Some n' => if (n' <? n)%N then (k', v') :: obj_add_index o' n k v else (k, v) :: o
      | None => (k, v) :: o
      end
  end.

(** [obj[k] = v]: an existing key keeps its place and gets the value; a new
    key takes its place in the order of enumeration. *)
Definition obj_set {V} (o : list (string * V)) (k : string) (v : V) : list (string * V) :=
  if bool_decide (k ∈ o.*1) then obj_replace o k v
  else match arrayIndex k with
       | Some n => obj_add_index o n k v
       | None => o ++ [(k, v)]
       end.

(** ** Data model *)

(** Modelled from the spec: the [Value] union is declared in the [flipper]
    package, outside this plugin.  It is a tagged union [{type, value}] with
    [type] one of null, boolean, number, bigint, string, bytes, unknown. *)
Inductive Value :=
| VNull
| VBoolean (b : bool)
| VNumber (n : Z)
| VBigint (n : Z)
| VString (s : string)
| VBytes (b : list Byte.byte)
| VUnknown (s : string).

Definition Row := list (Cell Value).

(** [row[i]], [undefined] for a missing cell. *)
Definition js_cell (row : Row) (i : Z) : option Value := mjoin (js_index row i).

Module Page.
Record t := mk {
  databaseId : Z;
  table : string;
  columns : list string;
  rows : list Row;
  start : Z;
  count : Z;
  total : Z;
  highlightedRows : list Z
}.
End Page.

Module Structure.
Record t := mk {
  databaseId : Z;
  table : string;
  columns : list string;
  rows : list Row;
  indexesColumns : list string;
  indexesValues : list Row
}.
End Structure.

Module QueriedTable.
Record t := mk {
  columns : list string;
  rows : list Row;
  highlightedRows : list Z
}.
End QueriedTable.

Module QueryResult.
Record t := mk {
  table : option QueriedTable.t;
  id : option Z;
  count : option Z
}.
End QueryResult.

Module DatabaseEntry.
Record t := mk {
  id : Z;
  name : string;
  tables : list string
}.
End DatabaseEntry.

Module Query.
Record t := mk {
  value : string;
  time : string
}.
End Query.

(** Modelled from the spec: [TableRowSortOrder] is declared in the [flipper]
    package; the subscriber reads its [key] and its [direction], which is
    [up] or [down]. *)
Inductive Direction := up | down.

Module SortOrder.
Record t := mk {
  key : string;
  direction : Direction
}.
End SortOrder.

Inductive ViewMode :=
| ViewData
| ViewStructure
| ViewSQL
| ViewTableInfo
| ViewQueryHistory.

(** The selected table: the field is declared [string | null], and
    [updateDatabases] can also store [undefined] in it. *)
Inductive TableSel :=
| TNull
| TUndefined
| TName (s : string).

(** The value of a rejected promise, kept in the [error] field. *)
Definition Err := string.

(** Query objects are shared by reference between the [query] field and the
    entries of [queryHistory], and [execute] writes the time of the object in
    place: the objects live in a heap and the state holds references. *)
Definition QueryRef := nat.

Record DatabasesPluginState := mkState {
  selectedDatabase : Z;
  selectedDatabaseTable : TableSel;
  pageRowNumber : Z;
  databases : list DatabaseEntry.t;
  outdatedDatabaseList : bool;
  viewMode : ViewMode;
  error : option Err;
  currentPage : option Page.t;
  currentStructure : option Structure.t;
  currentSort : option SortOrder.t;
  query : option QueryRef;
  queryResult : option QueryResult.t;
  favorites : list string;
  executionTime : Z;
  tableInfo : string;
  queryHistory : list QueryRef
}.

Definition set_selectedDatabase (v : Z) (s : DatabasesPluginState) :=
  mkState v (s.(selectedDatabaseTable)) (s.(pageRowNumber)) (s.(databases))
    (s.(outdatedDatabaseList)) (s.(viewMode)) (s.(error)) (s.(currentPage))
    (s.(currentStructure)) (s.(currentSort)) (s.(query)) (s.(queryResult))
    (s.(favorites)) (s.(executionTime)) (s.(tableInfo)) (s.(queryHistory)).

Definition set_selectedDatabaseTable (v : TableSel) (s : DatabasesPluginState) :=
  mkState (s.(selectedDatabase)) v (s.(pageRowNumber)) (s.(databases))
    (s.(outdatedDatabaseList)) (s.(viewMode)) (s.(error)) (s.(currentPage))
    (s.(currentStructure)) (s.(currentSort)) (s.(query)) (s.(queryResult))
    (s.(favorites)) (s.(executionTime)) (s.(tableInfo)) (s.(queryHistory)).

Definition set_pageRowNumber (v : Z) (s : DatabasesPluginState) :=
  mkState (s.(selectedDatabase)) (s.(selectedDatabaseTable)) v
    (s.(databases)) (s.(outdatedDatabaseList)) (s.(viewMode)) (s.(error))
    (s.(currentPage)) (s.(currentStructure)) (s.(currentSort)) (s.(query))
    (s.(queryResult)) (s.(favorites)) (s.(executionTime)) (s.(tableInfo))
    (s.(queryHistory)).

Definition set_databases (v : list DatabaseEntry.t) (s : DatabasesPluginState) :=
  mkState (s.(selectedDatabase)) (s.(selectedDatabaseTable))
    (s.(pageRowNumber)) v (s.(outdatedDatabaseList)) (s.(viewMode))
    (s.(error)) (s.(currentPage)) (s.(currentStructure)) (s.(currentSort))
    (s.(query)) (s.(queryResult)) (s.(favorites)) (s.(executionTime))
    (s.(tableInfo)) (s.(queryHistory)).

Definition set_outdatedDatabaseList (v : bool) (s : DatabasesPluginState) :=
  mkState (s.(selectedDatabase)) (s.(selectedDatabaseTable))
    (s.(pageRowNumber)) (s.(databases)) v (s.(viewMode)) (s.(error))
    (s.(currentPage)) (s.(currentStructure)) (s.(currentSort)) (s.(query))
    (s.(queryResult)) (s.(favorites)) (s.(executionTime)) (s.(tableInfo))
    (s.(queryHistory)).

Definition set_viewMode (v : ViewMode) (s : DatabasesPluginState) :=
  mkState (s.(selectedDatabase)) (s.(selectedDatabaseTable))
    (s.(pageRowNumber)) (s.(databases)) (s.(outdatedDatabaseList)) v
    (s.(error)) (s.(currentPage)) (s.(currentStructure)) (s.(currentSort))
    (s.(query)) (s.(queryResult)) (s.(favorites)) (s.(executionTime))
    (s.(tableInfo)) (s.(queryHistory)).

Definition set_error (v : option Err) (s : DatabasesPluginState) :=
  mkState (s.(selectedDatabase)) (s.(selectedDatabaseTable))
    (s.(pageRowNumber)) (s.(databases)) (s.(outdatedDatabaseList))
    (s.(viewMode)) v (s.(currentPage)) (s.(currentStructure))
    (s.(currentSort)) (s.(query)) (s.(queryResult)) (s.(favorites))
    (s.(executionTime)) (s.(tableInfo)) (s.(queryHistory)).

Definition set_currentPage (v : option Page.t) (s : DatabasesPluginState) :=
  mkState (s.(selectedDatabase)) (s.(selectedDatabaseTable))
    (s.(pageRowNumber)) (s.(databases)) (s.(outdatedDatabaseList))
    (s.(viewMode)) (s.(error)) v (s.(currentStructure)) (s.(currentSort))
    (s.(query)) (s.(queryResult)) (s.(favorites)) (s.(executionTime))
    (s.(tableInfo)) (s.(queryHistory)).

Definition set_currentStructure (v : option Structure.t) (s : DatabasesPluginState) :=
  mkState (s.(selectedDatabase)) (s.(selectedDatabaseTable))
    (s.(pageRowNumber)) (s.(databases)) (s.(outdatedDatabaseList))
    (s.(viewMode)) (s.(error)) (s.(currentPage)) v (s.(currentSort))
    (s.(query)) (s.(queryResult)) (s.(favorites)) (s.(executionTime))
    (s.(tableInfo)) (s.(queryHistory)).

Definition set_currentSort (v : option SortOrder.t) (s : DatabasesPluginState) :=
  mkState (s.(selectedDatabase)) (s.(selectedDatabaseTable))
    (s.(pageRowNumber)) (s.(databases)) (s.(outdatedDatabaseList))
    (s.(viewMode)) (s.(error)) (s.(currentPage)) (s.(currentStructure)) v
    (s.(query)) (s.(queryResult)) (s.(favorites)) (s.(executionTime))
    (s.(tableInfo)) (s.(queryHistory)).

Definition set_query (v : option QueryRef) (s : DatabasesPluginState) :=
  mkState (s.(selectedDatabase)) (s.(selectedDatabaseTable))
    (s.(pageRowNumber)) (s.(databases)) (s.(outdatedDatabaseList))
    (s.(viewMode)) (s.(error)) (s.(currentPage)) (s.(currentStructure))
    (s.(currentSort)) v (s.(queryResult)) (s.(favorites)) (s.(executionTime))
    (s.(tableInfo)) (s.(queryHistory)).

Definition set_queryResult (v : option QueryResult.t) (s : DatabasesPluginState) :=
  mkState (s.(selectedDatabase)) (s.(selectedDatabaseTable))
    (s.(pageRowNumber)) (s.(databases)) (s.(outdatedDatabaseList))
    (s.(viewMode)) (s.(error)) (s.(currentPage)) (s.(currentStructure))
    (s.(currentSort)) (s.(query)) v (s.(favorites)) (s.(executionTime))
    (s.(tableInfo)) (s.(queryHistory)).

Definition set_favorites (v : list string) (s : DatabasesPluginState) :=
  mkState (s.(selectedDatabase)) (s.(selectedDatabaseTable))
    (s.(pageRowNumber)) (s.(databases)) (s.(outdatedDatabaseList))
    (s.(viewMode)) (s.(error)) (s.(currentPage)) (s.(currentStructure))
    (s.(currentSort)) (s.(query)) (s.(queryResult)) v (s.(executionTime))
    (s.(tableInfo)) (s.(queryHistory)).

Definition set_executionTime (v : Z) (s : DatabasesPluginState) :=
  mkState (s.(selectedDatabase)) (s.(selectedDatabaseTable))
    (s.(pageRowNumber)) (s.(databases)) (s.(outdatedDatabaseList))
    (s.(viewMode)) (s.(error)) (s.(currentPage)) (s.(currentStructure))
    (s.(currentSort)) (s.(query)) (s.(queryResult)) (s.(favorites)) v
    (s.(tableInfo)) (s.(queryHistory)).

Definition set_tableInfo (v : string) (s : DatabasesPluginState) :=
  mkState (s.(selectedDatabase)) (s.(selectedDatabaseTable))
    (s.(pageRowNumber)) (s.(databases)) (s.(outdatedDatabaseList))
    (s.(viewMode)) (s.(error)) (s.(currentPage)) (s.(currentStructure))
    (s.(currentSort)) (s.(query)) (s.(queryResult)) (s.(favorites))
    (s.(executionTime)) v (s.(queryHistory)).

Definition set_queryHistory (v : list QueryRef) (s : DatabasesPluginState) :=
  mkState (s.(selectedDatabase)) (s.(selectedDatabaseTable))
    (s.(pageRowNumber)) (s.(databases)) (s.(outdatedDatabaseList))
    (s.(viewMode)) (s.(error)) (s.(currentPage)) (s.(currentStructure))
    (s.(currentSort)) (s.(query)) (s.(queryResult)) (s.(favorites))
    (s.(executionTime)) (s.(tableInfo)) v.

(** ** The store *)

Definition PAGE_SIZE : Z := 50.

Inductive Request :=
| ReqDatabaseList
| ReqGetTableData (count databaseId : Z) (order : option string) (reverse : bool)
    (table : string) (start : Z)
| ReqGetTableStructure (databaseId : Z) (table : string)
| ReqGetTableInfo (databaseId : Z) (table : string)
| ReqExecute (databaseId : Z) (value : string) (timeBefore : Z).

(** The plugin instance: the state of the store, the heap of query objects,
    the references of the query objects that are frozen, whether the
    favorites array of the state is frozen, the requests sent to the client
    and not answered yet (each stands for the promise and the variables its
    continuation captured), the favorites key of [localStorage], and the
    lines written with [console.error]. *)
Record Sys := mkSys {
  store : DatabasesPluginState;
  heap : list Query.t;
  frozen : list QueryRef;
  favoritesFrozen : bool;
  pending : list Request;
  storage : option (list string);
  console : list string
}.

Definition with_store (v : DatabasesPluginState) (sys : Sys) : Sys :=
  mkSys v (heap sys) (frozen sys) (favoritesFrozen sys) (pending sys) (storage sys)
    (console sys).

Definition with_heap (h : list Query.t) (sys : Sys) : Sys :=
  mkSys (store sys) h (frozen sys) (favoritesFrozen sys) (pending sys) (storage sys)
    (console sys).

Definition with_frozen (f : list QueryRef) (b : bool) (sys : Sys) : Sys :=
  mkSys (store sys) (heap sys) f b (pending sys) (storage sys) (console sys).

Definition with_pending (p : list Request) (sys : Sys) : Sys :=
  mkSys (store sys) (heap sys) (frozen sys) (favoritesFrozen sys) p (storage sys)
    (console sys).

Definition with_storage (f : option (list string)) (sys : Sys) : Sys :=
  mkSys (store sys) (heap sys) (frozen sys) (favoritesFrozen sys) (pending sys) f
    (console sys).

Definition with_console (c : list string) (sys : Sys) : Sys :=
  mkSys (store sys) (heap sys) (frozen sys) (favoritesFrozen sys) (pending sys)
    (storage sys) c.

(** [client.send(...)]: the request is outstanding until it is answered. *)
Definition send (r : Request) (sys : Sys) : Sys :=
  with_pending (pending sys ++ [r]) sys.

(** A table name that passes a truthiness test: a non-empty string. *)
Definition truthy_table (t : TableSel) : option string :=
  match t with
  | TName s => if bool_decide (s = EmptyString) then None else Some s
  | _ => None
  end.

(** The callback given to [pluginState.subscribe]: the fetches it issues for
    a change from [previousState] to [newState], in the order of the code. *)
Definition subscriber (newState previousState : DatabasesPluginState) : list Request :=
  let databaseId := selectedDatabase newState in
  match (if bool_decide (databaseId = 0) then None
         else truthy_table (selectedDatabaseTable newState)) with
  | Some table =>
      (match viewMode newState, currentPage newState with
       | ViewData, None =>
           [ReqGetTableData PAGE_SIZE (selectedDatabase newState)
              (SortOrder.key <$> currentSort newState)
              (match currentSort newState with
               | Some o => match SortOrder.direction o with down => true | up => false end
               | None => false
               end)
              table (pageRowNumber newState)]
       | _, _ => []
       end)
      ++ (match currentStructure newState with
          | None => [ReqGetTableStructure databaseId table]
          | Some _ => []
          end)
      ++ (match viewMode newState, currentStructure newState with
          | ViewTableInfo, None => [ReqGetTableInfo databaseId table]
          | _, _ => []
          end)
  | None => []
  end
  ++ (if negb (outdatedDatabaseList previousState) && outdatedDatabaseList newState
      then [ReqDatabaseList] else []).

(** Modelled from the spec: [createState] belongs to [flipper-plugin].  The
    store holds one state; [set] replaces it and delivers the new and the
    previous state to the subscriber synchronously after each set; [update]
    sets the state its recipe produces from the current one.

    [update] builds that state with [produce] of immer, the function
    [onRowEdited] calls for the patched page.  [produce] freezes the state it
    returns and every object in it: after an [update] the query objects and
    the favorites array of the state are frozen, and a write into one of them
    throws a [TypeError].  [set] freezes nothing. *)
Definition set (v : DatabasesPluginState) (sys : Sys) : Sys :=
  with_pending (pending sys ++ subscriber v (store sys)) (with_store v sys).

Definition freeze (sys : Sys) : Sys :=
  with_frozen (seq 0 (length (heap sys))) true sys.

Definition update (recipe : DatabasesPluginState -> DatabasesPluginState) (sys : Sys) : Sys :=
  set (recipe (store sys)) (freeze sys).

(** ** The update functions of [plugin] *)

#[global] Instance TableSel_eq_dec : EqDecision TableSel.
Proof. solve_decision. Defined.

(** [updates.sort((db1, db2) => db1.id - db2.id)]: ascending ids, entries of
    equal id in their order of arrival (the sort is stable). *)
Fixpoint insert_by_id (d : DatabaseEntry.t) (l : list DatabaseEntry.t) : list DatabaseEntry.t :=
  match l with
  | [] => [d]
  | e :: l' =>
      if bool_decide (DatabaseEntry.id d <= DatabaseEntry.id e) then d :: l
      else e :: insert_by_id d l'
  end.

Definition sort_by_id (l : list DatabaseEntry.t) : list DatabaseEntry.t :=
  foldr insert_by_id [] l.

(** [tables[0]], [undefined] for an empty list. *)
Definition first_table (tables : list string) : TableSel :=
  match tables with
  | [] => TUndefined
  | t :: _ => TName t
  end.

(** The database id [updateDatabases] selects: the id already selected, or
    for the falsy id 0 the id of the first entry of the sorted list. *)
Definition derivedDatabase (state : DatabasesPluginState) (databases : list DatabaseEntry.t) : Z :=
  if bool_decide (selectedDatabase state = 0)
  then match databases with
       | d :: _ => DatabaseEntry.id d
       | [] => 0
       end
  else selectedDatabase state.

Definition updateDatabases (updates : list DatabaseEntry.t) (sys : Sys) : Completion Sys :=
  let state := store sys in
  let databases := sort_by_id updates in
  let selectedDatabase' := derivedDatabase state databases in
  kept ← match truthy_table (selectedDatabaseTable state) with
         | Some t =>
             entry ← deref (js_index databases (selectedDatabase' - 1));
             mret (includes (DatabaseEntry.tables entry) t)
         | None => mret false
         end;
  selectedTable ← (if kept : bool then mret (selectedDatabaseTable state)
                   else entry ← deref (js_index databases (selectedDatabase' - 1));
                        mret (first_table (DatabaseEntry.tables entry)));
  let sameTableSelected :=
    bool_decide (selectedDatabase' = selectedDatabase state)
    && bool_decide (selectedTable = selectedDatabaseTable state) in
  mret (set (set_databases databases
            (set_outdatedDatabaseList false
            (set_selectedDatabase selectedDatabase'
            (set_selectedDatabaseTable selectedTable
            (set_pageRowNumber 0
            (set_currentPage (if sameTableSelected then currentPage state else None)
            (set_currentStructure None
            (set_currentSort (if sameTableSelected then currentSort state else None)
               state)))))))) sys).

Definition updateSelectedDatabase (database : Z) (sys : Sys) : Completion Sys :=
  let state := store sys in
  entry ← deref (js_index (databases state) (database - 1));
  let table :=
    match DatabaseEntry.tables entry with
    | t :: _ => if bool_decide (t = EmptyString) then TNull else TName t
    | [] => TNull
    end in
  mret (set (set_selectedDatabase database
            (set_selectedDatabaseTable table
            (set_pageRowNumber 0
            (set_currentPage None
            (set_currentStructure None
            (set_currentSort None state)))))) sys).

Definition updateSelectedDatabaseTable (table : string) (sys : Sys) : Sys :=
  let state := store sys in
  set (set_selectedDatabaseTable (TName table)
      (set_pageRowNumber 0
      (set_currentPage None
      (set_currentStructure None
      (set_currentSort None state))))) sys.

Definition updateViewMode (m : ViewMode) (sys : Sys) : Sys :=
  update (fun state => set_error None (set_viewMode m state)) sys.

Definition updatePage (event : Page.t) (sys : Sys) : Sys :=
  update (set_currentPage (Some event)) sys.

Definition updateStructure (event : Structure.t) (sys : Sys) : Sys :=
  update (set_currentStructure
            (Some (Structure.mk (Structure.databaseId event) (Structure.table event)
                     (Structure.columns event) (Structure.rows event)
                     (Structure.indexesColumns event) (Structure.indexesValues event)))) sys.

Definition displaySelect (columns : list string) (values : list Row) (sys : Sys) : Sys :=
  update (set_queryResult
            (Some (QueryResult.mk (Some (QueriedTable.mk columns values [])) None None))) sys.

Definition displayInsert (id : Z) (sys : Sys) : Sys :=
  let state := store sys in
  set (set_queryResult (Some (QueryResult.mk None (Some id) None)) state) sys.

Definition displayUpdateDelete (count : Z) (sys : Sys) : Sys :=
  update (set_queryResult (Some (QueryResult.mk None None (Some count)))) sys.

Definition updateTableInfo (info : string) (sys : Sys) : Sys :=
  update (set_tableInfo info) sys.

Definition nextPage (sys : Sys) : Sys :=
  update (fun state => set_currentPage None
                         (set_pageRowNumber (pageRowNumber state + PAGE_SIZE) state)) sys.

Definition previousPage (sys : Sys) : Sys :=
  update (fun state => set_currentPage None
                         (set_pageRowNumber (Z.max (pageRowNumber state - PAGE_SIZE) 0) state)) sys.

(** [execute]: the request goes out first; then, in the same turn, the query
    object of the buffer gets the current time written into it and is appended
    to the history.  The write is into the object the state holds: when that
    object is frozen it throws, after the request has gone out and before the
    history is touched.  [timeBefore] and [now] are the two readings of the
    clock.  The result is how the call ended and the instance after it. *)
Definition execute (queryText : string) (timeBefore : Z) (now : string) (sys : Sys)
    : Completion unit * Sys :=
  let sys1 := send (ReqExecute (selectedDatabase (store sys)) queryText timeBefore) sys in
  let newHistory := queryHistory (store sys1) in
  match query (store sys1) with
  | Some newQuery =>
      if bool_decide (newQuery ∈ frozen sys1) then (Thrown TypeError, sys1)
      else
        let sys2 :=
          with_heap (alter (fun q => Query.mk (Query.value q) now) newQuery (heap sys1))
            sys1 in
        (Returned tt, update (set_queryHistory (newHistory ++ [newQuery])) sys2)
  | None => (Returned tt, update (set_queryHistory newHistory) sys1)
  end.

Definition goToRow (row : Z) (sys : Sys) : Sys :=
  let state := store sys in
  match currentPage state with
  | None => sys
  | Some page =>
      let destinationRow :=
        if bool_decide (row < 0) then 0
        else if bool_decide (row >= Page.total page - PAGE_SIZE)
             then Z.max (Page.total page - PAGE_SIZE) 0
             else row in
      update (fun state => set_currentPage None (set_pageRowNumber destinationRow state)) sys
  end.

Definition refresh (sys : Sys) : Sys :=
  update (fun state => set_currentPage None (set_outdatedDatabaseList true state)) sys.

(** The argument of [updateFavorites]: no list, the array of the state itself
    (what [onFavoritesClicked] passes), or an array of its own. *)
Inductive FavoritesArg :=
| FavUndefined
| FavOfState
| FavFresh (l : list string).

(** [updateFavorites] computes the next state and returns it; it does not put
    it into the store.  [splice] removes in place: when the array is the one
    of the state, the state in the store loses the entry, without a [set];
    when that array is frozen, [splice] throws and nothing has happened.  The
    result is the returned state, or the exception, and the plugin instance
    after the call. *)
Definition updateFavorites (event : FavoritesArg) (sys : Sys)
    : Completion DatabasesPluginState * Sys :=
  let state := store sys in
  let '(newFavorites, shared) :=
    match event with
    | FavFresh l => (l, false)
    | FavOfState | FavUndefined => (favorites state, true)
    end in
  let toggled : Completion (list string * Sys) :=
    match query state ≫= (heap sys !!.) with
    | Some q =>
        let value := Query.value q in
        if includes newFavorites value then
          if (shared : bool) && favoritesFrozen sys then Thrown TypeError
          else
            let spliced := splice1 newFavorites (indexOf newFavorites value) in
            Returned (spliced,
                      if shared then with_store (set_favorites spliced state) sys else sys)
        else Returned (favorites state ++ [value], sys)
    | None => Returned (newFavorites, sys)
    end in
  match toggled with
  | Returned (newFavorites, sys1) =>
      (Returned (set_favorites newFavorites (store sys1)),
       with_storage (Some newFavorites) sys1)
  | Thrown e => (Thrown e, sys)
  end.

Definition sortByChanged (sortOrder : SortOrder.t) (sys : Sys) : Sys :=
  let state := store sys in
  set (set_currentSort (Some sortOrder)
      (set_pageRowNumber 0
      (set_currentPage None state))) sys.

(** [updateQuery] puts a new query object into the state: the object gets
    the next reference of the heap, and a new object is not frozen. *)
Definition updateQuery (value now : string) (sys : Sys) : Sys :=
  let state := store sys in
  let ref := length (heap sys) in
  set (set_query (Some ref) state)
    (with_frozen (filter (fun r => r <> ref) (frozen sys)) (favoritesFrozen sys)
       (with_heap (heap sys ++ [Query.mk value now]) sys)).

(** ** Answers of the remote client *)

Inductive Response :=
| RespDatabaseList (databases : list DatabaseEntry.t)
| RespTableData (columns : list string) (values : list Row) (start count total : Z)
| RespTableStructure (structureColumns : list string) (structureValues : list Row)
    (indexesColumns : list string) (indexesValues : list Row)
| RespTableInfo (definition : string)
| RespSelect (columns : list string) (values : list Row)
| RespInsert (insertedId : Z)
| RespUpdateDelete (affectedCount : Z).

(** The [then] continuation of a request; [now] is the clock when it runs.
    The page and the structure are built from the database id and the table
    the subscriber captured when it sent the request.  An answer of another
    shape than the request expects is not a case of the protocol; for
    [execute] it is an answer of none of the three kinds. *)
Definition resolve (r : Request) (resp : Response) (now : Z) (sys : Sys) : Completion Sys :=
  match r, resp with
  | ReqDatabaseList, RespDatabaseList databases => updateDatabases databases sys
  | ReqGetTableData _ databaseId _ _ table _, RespTableData columns values start count total =>
      mret (updatePage (Page.mk databaseId table columns values start count total []) sys)
  | ReqGetTableStructure databaseId table,
    RespTableStructure structureColumns structureValues indexesColumns indexesValues =>
      mret (updateStructure (Structure.mk databaseId table structureColumns structureValues
                               indexesColumns indexesValues) sys)
  | ReqGetTableInfo _ _, RespTableInfo definition => mret (updateTableInfo definition sys)
  | ReqExecute _ _ timeBefore, data =>
      let sys1 :=
        update (fun state => set_executionTime (now - timeBefore) (set_error None state))
          sys in
      mret (match data with
            | RespSelect columns values => displaySelect columns values sys1
            | RespInsert insertedId => displayInsert insertedId sys1
            | RespUpdateDelete affectedCount => displayUpdateDelete affectedCount sys1
            | _ => sys1
            end)
  | _, _ => mret sys
  end.

(** The [catch] continuation; the database list is requested without one. *)
Definition reject (r : Request) (e : Err) (sys : Sys) : Sys :=
  match r with
  | ReqDatabaseList => sys
  | _ => update (set_error (Some e)) sys
  end.

(** ** Row editing *)

(** What [onRowEdited] does after its checks: nothing, an error on the
    console, or the UPDATE statement it executes and the page it stores. *)
Inductive EditOutcome :=
| EditIgnored
| EditRejected (message : string)
| EditEmitted (statement : string) (page : Page.t).

Definition TypeMap := list (string * (string * bool)).

Fixpoint primaryKeyNames (rows : list Row) (primaryKeyIdx nameKeyIdx : Z)
    (acc : list string) : Completion (list string) :=
  match rows with
  | [] => mret acc
  | row :: rest =>
      primary ← deref (js_cell row primaryKeyIdx);
      acc' ← match primary with
             | VBoolean true =>
                 name ← deref (js_cell row nameKeyIdx);
                 mret (match name with
                       | VString s => acc ++ [s]
                       | _ => acc
                       end)
             | _ => mret acc
             end;
      primaryKeyNames rest primaryKeyIdx nameKeyIdx acc'
  end.

Fixpoint columnTypes (rows : list Row) (nameKeyIdx typeIdx nullableIdx : Z)
    (acc : TypeMap) : Completion TypeMap :=
  match rows with
  | [] => mret acc
  | row :: rest =>
      nameValue ← deref (js_cell row nameKeyIdx);
      typeValue ← deref (js_cell row typeIdx);
      nullableValue ← (if bool_decide (nullableIdx < 0) then mret VNull
                       else deref (js_cell row nullableIdx));
      let nullable := match nullableValue with
                      | VBoolean false => false
                      | _ => true
                      end in
      columnTypes rest nameKeyIdx typeIdx nullableIdx
        (match nameValue, typeValue with
         | VString name, VString type => obj_set acc name (type, nullable)
         | _, _ => acc
         end)
  end.

(** One assignment of the [produce] recipe that patches the page. *)
Definition patchCell (highlightedRowIdx : Z) (draft : Page.t) (kv : string * Value) : Page.t :=
  let columnIdx := indexOf (Page.columns draft) kv.1 in
  if bool_decide (columnIdx >= 0) then
    Page.mk (Page.databaseId draft) (Page.table draft) (Page.columns draft)
      (alter (fun r => js_array_set r (Z.to_nat columnIdx) kv.2)
         (Z.to_nat highlightedRowIdx) (Page.rows draft))
      (Page.start draft) (Page.count draft) (Page.total draft) (Page.highlightedRows draft)
  else draft.

Definition missingColumnsMessage : string :=
  "primary_key, column_name, and/or data_type cannot be empty".

Section RowEdit.

(** [convertStringToValue] and [constructUpdateQuery] come from
    [UpdateQueryUtil]; the plugin only passes values through them. *)
Variable convertStringToValue : TypeMap -> string -> option string -> Value.
Variable constructUpdateQuery :
  TableSel -> list (string * Cell Value) -> list (string * Value) -> string.

(** The body of [onRowEdited] up to its calls of [execute] and
    [updatePage], as a function of the state it reads.  [change] is the list
    [Object.entries] gives for the object of the edit. *)
Definition rowEdit (change : list (string * option string))
    (state : DatabasesPluginState) : Completion EditOutcome :=
  let highlightedRowIdx :=
    match currentPage state with
    | Some page => default (-1) (head (Page.highlightedRows page))
    | None => -1
    end in
  let row :=
    if bool_decide (highlightedRowIdx >= 0)
    then page ← currentPage state; js_index (Page.rows page) highlightedRowIdx
    else None in
  match viewMode state, selectedDatabaseTable state,
        currentStructure state, currentPage state, row, change with
  | ViewData, TNull, _, _, _, _ => mret EditIgnored
  | ViewData, _, _, _, _, [] => mret EditIgnored
  | ViewData, selectedDatabaseTable, Some currentStructure, Some currentPage, Some row, _ =>
      let columns := Page.columns currentPage in
      let primaryKeyIdx := indexOf (Structure.columns currentStructure) "primary_key" in
      let nameKeyIdx := indexOf (Structure.columns currentStructure) "column_name" in
      let typeIdx := indexOf (Structure.columns currentStructure) "data_type" in
      let nullableIdx := indexOf (Structure.columns currentStructure) "nullable" in
      if bool_decide (primaryKeyIdx < 0) && bool_decide (nameKeyIdx < 0)
         && bool_decide (typeIdx < 0)
      then mret (EditRejected missingColumnsMessage)
      else
        names ← primaryKeyNames (Structure.rows currentStructure) primaryKeyIdx nameKeyIdx [];
        let primaryColumnIndexes :=
          filter (fun idx => idx >= 0) (indexOf columns <$> names) in
        if bool_decide (length primaryColumnIndexes <= 0)%nat then mret EditIgnored
        else
          types ← columnTypes (Structure.rows currentStructure) nameKeyIdx typeIdx nullableIdx [];
          let changeValue :=
            foldl (fun acc '(key, value) =>
                     obj_set acc key (convertStringToValue types key value)) [] change in
          let statement :=
            constructUpdateQuery selectedDatabaseTable
              (foldl (fun acc idx =>
                        obj_set acc (default "undefined"%string (js_index columns idx))
                          (js_cell row idx)) [] primaryColumnIndexes)
              changeValue in
          mret (EditEmitted statement
                  (foldl (patchCell highlightedRowIdx) currentPage changeValue))
  | _, _, _, _, _, _ => mret EditIgnored
  end.

(** [onRowEdited]: how the handler ended and the instance after it.  When
    [execute] throws, the page is not stored. *)
Definition onRowEdited (change : list (string * option string))
    (timeBefore : Z) (now : string) (sys : Sys) : Completion unit * Sys :=
  match rowEdit change (store sys) with
  | Thrown e => (Thrown e, sys)
  | Returned EditIgnored => (Returned tt, sys)
  | Returned (EditRejected message) =>
      (Returned tt, with_console (console sys ++ [message]) sys)
  | Returned (EditEmitted statement page) =>
      match execute statement timeBefore now sys with
      | (Returned _, executed) => (Returned tt, updatePage page executed)
      | (Thrown e, executed) => (Thrown e, executed)
      end
  end.

(** ** Events *)

(** What can happen to a plugin instance: the calls the component makes,
    and the answer or the failure of the request at a position of the list
    of outstanding requests.  The events carry the readings of the clock
    their handlers take. *)
Inductive Event :=
| Connect
| UpdateSelectedDatabase (database : Z)
| UpdateSelectedDatabaseTable (table : string)
| UpdateViewMode (m : ViewMode)
| NextPage
| PreviousPage
| GoToRow (row : Z)
| Refresh
| SortByChanged (sortOrder : SortOrder.t)
| UpdateQuery (value now : string)
| Execute (queryText : string) (timeBefore : Z) (now : string)
| FavoritesClicked
| RowEdited (change : list (string * option string)) (timeBefore : Z) (now : string)
| Resolve (i : nat) (resp : Response) (now : Z)
| Reject (i : nat) (e : Err).

(** The request an answer is for leaves the list when its promise settles. *)
Definition settled (i : nat) (sys : Sys) : Sys :=
  with_pending (delete i (pending sys)) sys.

(** A handler that throws before it has done anything leaves the instance as
    it is. *)
Definition ended (c : Completion Sys) (sys : Sys) : Completion unit * Sys :=
  match c with
  | Returned sys' => (Returned tt, sys')
  | Thrown e => (Thrown e, sys)
  end.

Definition discard {A} (c : Completion A) : Completion unit :=
  match c with
  | Returned _ => Returned tt
  | Thrown e => Thrown e
  end.

(** How the handler of an event ends, and the instance after it.  The
    continuation of an answer runs on the instance without its request. *)
Definition dispatch (ev : Event) (sys : Sys) : Completion unit * Sys :=
  match ev with
  | Connect =>
      (discard (updateFavorites (FavFresh (default [] (storage sys)))
                  (send ReqDatabaseList sys)).1,
       (updateFavorites (FavFresh (default [] (storage sys)))
          (send ReqDatabaseList sys)).2)
  | UpdateSelectedDatabase database => ended (updateSelectedDatabase database sys) sys
  | UpdateSelectedDatabaseTable table => (Returned tt, updateSelectedDatabaseTable table sys)
  | UpdateViewMode m => (Returned tt, updateViewMode m sys)
  | NextPage => (Returned tt, nextPage sys)
  | PreviousPage => (Returned tt, previousPage sys)
  | GoToRow row => (Returned tt, goToRow row sys)
  | Refresh => (Returned tt, refresh sys)
  | SortByChanged sortOrder => (Returned tt, sortByChanged sortOrder sys)
  | UpdateQuery value now => (Returned tt, updateQuery value now sys)
  | Execute queryText timeBefore now => execute queryText timeBefore now sys
  | FavoritesClicked =>
      (discard (updateFavorites FavOfState sys).1, (updateFavorites FavOfState sys).2)
  | RowEdited change timeBefore now => onRowEdited change timeBefore now sys
  | Resolve i resp now =>
      match pending sys !! i with
      | Some r => ended (resolve r resp now (settled i sys)) (settled i sys)
      | None => (Returned tt, sys)
      end
  | Reject i e =>
      match pending sys !! i with
      | Some r => (Returned tt, reject r e (settled i sys))
      | None => (Returned tt, sys)
      end
  end.

(** The instance after an event, whether its handler returned or threw. *)
Definition step (sys : Sys) (ev : Event) : Sys := (dispatch ev sys).2.

Definition run (sys : Sys) (trace : list Event) : Sys := foldl step sys trace.

End RowEdit.

(** The state [createState] is given, and the instance before it connects. *)
Definition initialState : DatabasesPluginState :=
  mkState 0 TNull 0 [] true ViewData None None None None None None [] 0 EmptyString [].

Definition initialSys : Sys := mkSys initialState [] [] false [] None [].

(** ** Derived notions used in the statements *)

(** Traces without a row edit never reach [UpdateQueryUtil]; they are
    replayed with its two functions fixed arbitrarily. *)
Definition replay : Sys -> list Event -> Sys :=
  run (fun _ _ _ => VNull) (fun _ _ _ => EmptyString).

(** [row] clamped into the interval from [lo] to [hi]. *)
Definition clamp (lo hi row : Z) : Z := Z.min (Z.max row lo) hi.

(** An instance whose loaded page reports [total] rows. *)
Definition loadedPage (total : Z) : Sys :=
  with_store
    (set_currentPage (Some (Page.mk 1 "t" ["c"%string] [] 0 0 total [])) initialState)
    initialSys.

(** The text of the query buffer, and the texts of the history entries. *)
Definition bufferText (sys : Sys) : option string :=
  Query.value <$> (query (store sys) ≫= (heap sys !!.)).

Definition historyTexts (sys : Sys) : list string :=
  omap (fun r => Query.value <$> heap sys !! r) (queryHistory (store sys)).

(** Every reference of the state points into the heap. *)
Definition wf (sys : Sys) : Prop :=
  (forall r, query (store sys) = Some r -> (r < length (heap sys))%nat)
  /\ Forall (fun r => (r < length (heap sys))%nat) (queryHistory (store sys)).

(** The state changed its selected database or its selected table. *)
Definition selectionChanged (old new : DatabasesPluginState) : Prop :=
  selectedDatabase new <> selectedDatabase old
  \/ selectedDatabaseTable new <> selectedDatabaseTable old.

(** The ids of the sorted list are 1, 2, ..., its length. *)
Definition contiguousIds (l : list DatabaseEntry.t) : Prop :=
  DatabaseEntry.id <$> sort_by_id l = seqZ 1 (Z.of_nat (length l)).


(** Instances that agree on the query objects, the buffer and the history. *)
Definition sameQueries (sys sys' : Sys) : Prop :=
  heap sys' = heap sys
  /\ query (store sys') = query (store sys)
  /\ queryHistory (store sys') = queryHistory (store sys).

(** The query object of the buffer is frozen. *)
Definition bufferFrozen (sys : Sys) : bool :=
  match query (store sys) with
  | Some r => bool_decide (r ∈ frozen sys)
  | None => false
  end.

(** The calls of [execute] along a trace that reach the history: an
    [Execute] event, and a row edit that passes its checks, when the query
    object of the buffer is not frozen. *)
Definition submits (convertStringToValue : TypeMap -> string -> option string -> Value)
    (constructUpdateQuery :
       TableSel -> list (string * Cell Value) -> list (string * Value) -> string)
    (sys : Sys) (ev : Event) : bool :=
  match ev with
  | Execute _ _ _ => negb (bufferFrozen sys)
  | RowEdited change _ _ =>
      match rowEdit convertStringToValue constructUpdateQuery change (store sys) with
      | Returned (EditEmitted _ _) => negb (bufferFrozen sys)
      | _ => false
      end
  | _ => false
  end.

(** The texts the query buffer held at each of these calls of a trace, in the
    order of the calls; a call with no query object in the buffer contributes
    none. *)
Fixpoint submissions (convertStringToValue : TypeMap -> string -> option string -> Value)
    (constructUpdateQuery :
       TableSel -> list (string * Cell Value) -> list (string * Value) -> string)
    (sys : Sys) (trace : list Event) : list string :=
  match trace with
  | [] => []
  | ev :: rest =>
      (if submits convertStringToValue constructUpdateQuery sys ev
       then option_list (bufferText sys) else [])
      ++ submissions convertStringToValue constructUpdateQuery
           (step convertStringToValue constructUpdateQuery sys ev) rest
  end.

(** How a request ends: with an answer at some time, or with a failure. *)
Inductive Settlement :=
| Answered (resp : Response) (now : Z)
| Failed (e : Err).

Definition settle (i : nat) (s : Settlement) : Event :=
  match s with
  | Answered resp now => Resolve i resp now
  | Failed e => Reject i e
  end.

(** ** Callbacks of the component *)

(** [onRefreshClicked]: the error is cleared through the store, then
    [refresh] runs. *)
Definition onRefreshClicked (sys : Sys) : Sys :=
  refresh (update (set_error None) sys).

(** [databases.find((x) => x.name === selected)?.id || 0]. *)
Definition findDatabaseId (databases : list DatabaseEntry.t) (selected : string) : Z :=
  match List.find (fun x => bool_decide (DatabaseEntry.name x = selected)) databases with
  | Some x => DatabaseEntry.id x
  | None => 0
  end.

Definition onDatabaseSelected (selected : string) (sys : Sys) : Completion Sys :=
  updateSelectedDatabase (findDatabaseId (databases (store sys)) selected) sys.

(** [onExecuteClicked]: the text of the query object of the buffer is
    executed, if there is one. *)
Definition onExecuteClicked (timeBefore : Z) (now : string) (sys : Sys)
    : Completion unit * Sys :=
  match query (store sys) ≫= (heap sys !!.) with
  | Some q => execute (Query.value q) timeBefore now sys
  | None => (Returned tt, sys)
  end.

(** What [renderQuery] returns for a query result: nothing, the result table
    (with the detail sidebar of the row, when one row is highlighted), the id
    of the inserted row, or the number of rows affected. *)
Inductive QueryView :=
| NothingShown
| TableShown (table : QueriedTable.t) (sidebar : option (option Row))
| RowIdShown (id : Z)
| RowsAffectedShown (count : Z).

(** [x && x !== null] for a number or [null]: the number, unless it is 0. *)
Definition truthy_number (x : option Z) : option Z :=
  match x with
  | Some n => if bool_decide (n = 0) then None else Some n
  | None => None
  end.

Definition renderQuery (query : option QueryResult.t) : QueryView :=
  match query with
  | None => NothingShown
  | Some query =>
      match QueryResult.table query with
      | Some table =>
          TableShown table
            (match QueriedTable.highlightedRows table with
             | [h] => Some (js_index (QueriedTable.rows table) h)
             | _ => None
             end)
      | None =>
          match truthy_number (QueryResult.id query) with
          | Some id => RowIdShown id
          | None =>
              match truthy_number (QueryResult.count query) with
              | Some count => RowsAffectedShown count
              | None => NothingShown
              end
          end
      end
  end.

(** ** The section descriptor of the Litho plugin

    [DebugSectionDescriptor.hitTest].  Java's [int] is a 32-bit integer whose
    addition wraps around.  A child view enters with its four edges and with
    its two translations as the cast [(int)] has made them integers.  The
    index of the loop stays below the size of the list of children, an [int],
    and does not wrap. *)
Module DebugSectionDescriptor.

Definition wrap32 (z : Z) : Z := (z + 2 ^ 31) mod 2 ^ 32 - 2 ^ 31.

Record Rect := mkRect {
  left : Z;
  top : Z;
  right : Z;
  bottom : Z
}.

Record View := mkView {
  getLeft : Z;
  getTop : Z;
  getRight : Z;
  getBottom : Z;
  getTranslationX : Z;
  getTranslationY : Z
}.

(** The bounds [hitTest] tests a child view against. *)
Definition viewBounds (child : View) : Rect :=
  mkRect (wrap32 (getLeft child + getTranslationX child))
    (wrap32 (getTop child + getTranslationY child))
    (wrap32 (getRight child + getTranslationX child))
    (wrap32 (getBottom child + getTranslationY child)).

(** A section node: one of a diff section spec, whose children are views, or
    one of a group section spec, whose children are sections with bounds. *)
Inductive DebugSection :=
| DiffSection (children : list View)
| GroupSection (children : list Rect).

(** The one call [hitTest] makes on the touch. *)
Inductive TouchCall :=
| continueWithOffset (index dx dy : Z)
| finish.

Section HitTest.

(** [touch.containedIn(left, top, right, bottom)]. *)
Variable containedIn : Z -> Z -> Z -> Z -> bool.

Definition contains (bounds : Rect) : bool :=
  containedIn (left bounds) (top bounds) (right bounds) (bottom bounds).

Fixpoint hitViews (children : list View) (i : Z) : TouchCall :=
  match children with
  | [] => finish
  | child :: rest =>
      if contains (viewBounds child)
      then continueWithOffset i (left (viewBounds child)) (top (viewBounds child))
      else hitViews rest (i + 1)
  end.

Fixpoint hitSections (children : list Rect) (i : Z) : TouchCall :=
  match children with
  | [] => finish
  | bounds :: rest =>
      if contains bounds then continueWithOffset i 0 0
      else hitSections rest (i + 1)
  end.

Definition hitTest (node : DebugSection) : TouchCall :=
  match node with
  | DiffSection children => hitViews children 0
  | GroupSection children => hitSections children 0
  end.

End HitTest.

End DebugSectionDescriptor.

(** The list of databases is marked outdated and no request for it is
    outstanding. *)
Definition listStuck (sys : Sys) : Prop :=
  outdatedDatabaseList (store sys) = true /\ ReqDatabaseList ∉ pending sys.

(** ** View mode *)

(** C9. For every state and every mode [m], [updateViewMode m] produces a
    state whose view mode is [m] and whose error is null; every other field of
    the state is the one it had, and so are the query objects, the favorites
    storage and the console. *)
Theorem updateViewMode_frame (m : ViewMode) (sys : Sys) :
  let old := store sys in
  let new := store (updateViewMode m sys) in
  viewMode new = m /\ error new = None
  /\ selectedDatabase new = selectedDatabase old
  /\ selectedDatabaseTable new = selectedDatabaseTable old
  /\ pageRowNumber new = pageRowNumber old
  /\ databases new = databases old
  /\ outdatedDatabaseList new = outdatedDatabaseList old
  /\ currentPage new = currentPage old
  /\ currentStructure new = currentStructure old
  /\ currentSort new = currentSort old
  /\ query new = query old
  /\ queryResult new = queryResult old
  /\ favorites new = favorites old
  /\ executionTime new = executionTime old
  /\ tableInfo new = tableInfo old
  /\ queryHistory new = queryHistory old
  /\ heap (updateViewMode m sys) = heap sys
  /\ storage (updateViewMode m sys) = storage sys
  /\ console (updateViewMode m sys) = console sys.
Proof. cbv zeta. repeat split. Qed.

(** ** Pagination *)

Lemma goToRow_destination (row total : Z) :
  (if bool_decide (row < 0) then 0
   else if bool_decide (row >= total - PAGE_SIZE)
        then Z.max (total - PAGE_SIZE) 0
        else row)
  = clamp 0 (Z.max (total - PAGE_SIZE) 0) row.
Proof.
  unfold clamp. repeat case_bool_decide; lia.
Qed.

(** C6. With a page of [total] rows loaded, [goToRow row] sets the row number
    to [row] clamped between 0 and the larger of [total - 50] and 0, and nulls
    the page; for 120 rows, row 1000 gives 70 and row -5 gives 0.  With no
    page loaded [goToRow] leaves the instance as it is. *)
Theorem goToRow_clamps (row : Z) (sys : Sys) :
  match currentPage (store sys) with
  | Some page =>
      pageRowNumber (store (goToRow row sys))
      = clamp 0 (Z.max (Page.total page - 50) 0) row
      /\ currentPage (store (goToRow row sys)) = None
  | None => goToRow row sys = sys
  end
  /\ pageRowNumber (store (goToRow 1000 (loadedPage 120))) = 70
  /\ pageRowNumber (store (goToRow (-5) (loadedPage 120))) = 0.
Proof.
  split; [|split; reflexivity].
  unfold goToRow. destruct (currentPage (store sys)) as [page|] eqn:Hpage; [|reflexivity].
  split; [|reflexivity].
  cbn. apply goToRow_destination.
Qed.

(** ** The database list *)

Lemma includes_elem_of (l : list string) (x : string) :
  includes l x = true <-> x ∈ l.
Proof. unfold includes. apply bool_decide_eq_true. Qed.

Lemma first_table_cases (tables : list string) :
  (exists t, first_table tables = TName t /\ t ∈ tables)
  \/ (tables = [] /\ first_table tables = TUndefined).
Proof.
  destruct tables as [|t rest]; [right; split; reflexivity|].
  left. exists t. split; [reflexivity|]. apply list_elem_of_here.
Qed.

Lemma truthy_table_name (sel : TableSel) (t : string) :
  truthy_table sel = Some t -> sel = TName t.
Proof.
  destruct sel as [| |s]; cbn; try discriminate.
  case_bool_decide; [discriminate|]. congruence.
Qed.

(** What a call of [updateDatabases] that returns has done: it read the entry
    at position [selectedDatabase - 1] of the sorted list, and set the fields
    below. *)
Lemma updateDatabases_returned (l : list DatabaseEntry.t) (sys sys' : Sys) :
  updateDatabases l sys = Returned sys' ->
  let state := store sys in
  let d := derivedDatabase state (sort_by_id l) in
  exists entry selectedTable,
    js_index (sort_by_id l) (d - 1) = Some entry
    /\ ((exists t, selectedTable = TName t /\ t ∈ DatabaseEntry.tables entry)
        \/ (DatabaseEntry.tables entry = [] /\ selectedTable = TUndefined))
    /\ databases (store sys') = sort_by_id l
    /\ selectedDatabase (store sys') = d
    /\ selectedDatabaseTable (store sys') = selectedTable
    /\ pageRowNumber (store sys') = 0
    /\ currentStructure (store sys') = None
    /\ (selectionChanged state (store sys') ->
        currentPage (store sys') = None /\ currentSort (store sys') = None).
Proof.
  intros H state d. unfold updateDatabases in H. fold state in H. fold d in H.
  destruct (js_index (sort_by_id l) (d - 1)) as [entry|] eqn:Hentry.
  2:{ destruct (truthy_table (selectedDatabaseTable state)); cbn in H; discriminate. }
  exists entry.
  destruct (truthy_table (selectedDatabaseTable state)) as [t|] eqn:Ht; cbn in H.
  - destruct (includes (DatabaseEntry.tables entry) t) eqn:Hinc; cbn in H.
    + exists (selectedDatabaseTable state). injection H as <-. cbn.
      apply truthy_table_name in Ht. apply includes_elem_of in Hinc.
      split; [reflexivity|]. split; [left; exists t; split; assumption|].
      repeat (split; [reflexivity|]).
      intros [Hd|Hs]; [|contradiction].
      rewrite (bool_decide_eq_false_2 (d = selectedDatabase state)) by exact Hd.
      split; reflexivity.
    + exists (first_table (DatabaseEntry.tables entry)). injection H as <-. cbn.
      split; [reflexivity|]. split; [apply first_table_cases|].
      repeat (split; [reflexivity|]).
      intros [Hd|Hs].
      * rewrite (bool_decide_eq_false_2 (d = selectedDatabase state)) by exact Hd.
        split; reflexivity.
      * rewrite (bool_decide_eq_false_2
                   (first_table (DatabaseEntry.tables entry) = selectedDatabaseTable state))
          by exact Hs.
        rewrite andb_false_r. split; reflexivity.
  - exists (first_table (DatabaseEntry.tables entry)). injection H as <-. cbn.
    split; [reflexivity|]. split; [apply first_table_cases|].
    repeat (split; [reflexivity|]).
    intros [Hd|Hs].
    + rewrite (bool_decide_eq_false_2 (d = selectedDatabase state)) by exact Hd.
      split; reflexivity.
    + rewrite (bool_decide_eq_false_2
                 (first_table (DatabaseEntry.tables entry) = selectedDatabaseTable state))
        by exact Hs.
      rewrite andb_false_r. split; reflexivity.
Qed.

Lemma insert_by_id_perm (d : DatabaseEntry.t) (l : list DatabaseEntry.t) :
  insert_by_id d l ≡ₚ d :: l.
Proof.
  induction l as [|e l IH]; [reflexivity|].
  cbn. case_bool_decide; [reflexivity|].
  rewrite IH. apply Permutation_swap.
Qed.

Lemma sort_by_id_perm (l : list DatabaseEntry.t) : sort_by_id l ≡ₚ l.
Proof.
  induction l as [|d l IH]; [reflexivity|].
  cbn. fold (sort_by_id l). rewrite insert_by_id_perm, IH. reflexivity.
Qed.

Lemma insert_by_id_sorted (d : DatabaseEntry.t) (l : list DatabaseEntry.t) :
  StronglySorted (fun a b => DatabaseEntry.id a <= DatabaseEntry.id b) l ->
  StronglySorted (fun a b => DatabaseEntry.id a <= DatabaseEntry.id b) (insert_by_id d l).
Proof.
  induction 1 as [|e l Hsorted IH Hall]; cbn.
  - constructor; constructor.
  - case_bool_decide as Hle.
    + constructor; [constructor; assumption|].
      constructor; [exact Hle|].
      eapply Forall_impl; [exact Hall|]. cbn. intros x Hx. lia.
    + constructor; [exact IH|].
      rewrite insert_by_id_perm. constructor; [lia|exact Hall].
Qed.

Lemma sort_by_id_sorted (l : list DatabaseEntry.t) :
  StronglySorted (fun a b => DatabaseEntry.id a <= DatabaseEntry.id b) (sort_by_id l).
Proof.
  induction l as [|d l IH]; cbn; [constructor|].
  apply insert_by_id_sorted. exact IH.
Qed.






Lemma insert_by_id_length (d : DatabaseEntry.t) (l : list DatabaseEntry.t) :
  length (insert_by_id d l) = S (length l).
Proof.
  induction l as [|e l IH]; [reflexivity|].
  cbn. case_bool_decide; cbn; [reflexivity|]. rewrite IH. reflexivity.
Qed.

Lemma sort_by_id_length (l : list DatabaseEntry.t) :
  length (sort_by_id l) = length l.
Proof.
  induction l as [|d l IH]; [reflexivity|].
  cbn. rewrite insert_by_id_length. fold (sort_by_id l). rewrite IH. reflexivity.
Qed.

Lemma js_index_None {A} (l : list A) (i : Z) :
  js_index l i = None <-> i < 0 \/ Z.of_nat (length l) <= i.
Proof.
  unfold js_index. case_bool_decide as Hi.
  - rewrite lookup_ge_None. lia.
  - split; [lia|reflexivity].
Qed.

(** [updateDatabases] throws exactly when it finds no entry to read. *)
Lemma updateDatabases_thrown (l : list DatabaseEntry.t) (sys : Sys) :
  updateDatabases l sys = Thrown TypeError
  <-> js_index (sort_by_id l) (derivedDatabase (store sys) (sort_by_id l) - 1) = None.
Proof.
  unfold updateDatabases.
  destruct (js_index (sort_by_id l) (derivedDatabase (store sys) (sort_by_id l) - 1))
    as [entry|] eqn:Hentry.
  - destruct (truthy_table (selectedDatabaseTable (store sys))) as [t|]; cbn.
    + destruct (includes (DatabaseEntry.tables entry) t); cbn; split; discriminate.
    + split; discriminate.
  - destruct (truthy_table (selectedDatabaseTable (store sys))); cbn; split; reflexivity.
Qed.


(** C10, as the code has it.  [updateDatabases] reads the entry at position
    [selectedDatabase - 1] of the sorted list.  The read finds no entry, and
    the call throws without a new state, exactly when the derived id is below
    1 or above the length of the list; this is so for every empty list.  Ids
    that are not contiguous from 1 do not make the call fail by themselves. *)
Theorem updateDatabases_throws_iff_out_of_range (l : list DatabaseEntry.t) (sys : Sys) :
  let d := derivedDatabase (store sys) (sort_by_id l) in
  (updateDatabases l sys = Thrown TypeError <-> d < 1 \/ Z.of_nat (length l) < d)
  /\ (js_index (sort_by_id l) (d - 1) = None <-> d < 1 \/ Z.of_nat (length l) < d)
  /\ updateDatabases [] sys = Thrown TypeError
  /\ (forall entry, js_index (sort_by_id l) (d - 1) = Some entry ->
      exists sys', updateDatabases l sys = Returned sys'
                   /\ selectedDatabase (store sys') = d).
Proof.
  cbv zeta.
  assert (Hidx : forall l', js_index (sort_by_id l')
                    (derivedDatabase (store sys) (sort_by_id l') - 1) = None
                  <-> derivedDatabase (store sys) (sort_by_id l') < 1
                      \/ Z.of_nat (length l') < derivedDatabase (store sys) (sort_by_id l')).
  { intros l'. rewrite js_index_None, sort_by_id_length. lia. }
  split; [|split; [|split]].
  - rewrite updateDatabases_thrown. apply Hidx.
  - apply Hidx.
  - apply updateDatabases_thrown, Hidx. cbn.
    unfold derivedDatabase. cbn. case_bool_decide; lia.
  - intros entry Hentry.
    destruct (updateDatabases l sys) as [sys'|[]] eqn:Hcall.
    + exists sys'. split; [reflexivity|].
      apply updateDatabases_returned in Hcall.
      destruct Hcall as (_ & _ & _ & _ & _ & Hd & _). exact Hd.
    + apply updateDatabases_thrown in Hcall. rewrite Hcall in Hentry. discriminate.
Qed.

(** C10, counterexample.  The ids 2 and 3 are not contiguous from 1, yet the
    call returns a new state: with no database selected before, it selects id
    2 and reads position 1, the entry of id 3, whose table becomes the
    selected one. *)
Lemma updateDatabases_gap_in_ids_returns :
  ~ contiguousIds [DatabaseEntry.mk 2 "a" ["x"%string]; DatabaseEntry.mk 3 "b" ["y"%string]]
  /\ exists sys',
      updateDatabases
        [DatabaseEntry.mk 2 "a" ["x"%string]; DatabaseEntry.mk 3 "b" ["y"%string]]
        initialSys = Returned sys'
      /\ selectedDatabase (store sys') = 2
      /\ selectedDatabaseTable (store sys') = TName "y".
Proof.
  split; [intros H; discriminate H|].
  eexists. split; [reflexivity|]. split; reflexivity.
Qed.

(** ** Selection changes *)

(** C5. A call of [updateDatabases], [updateSelectedDatabase] or
    [updateSelectedDatabaseTable] whose result differs from the state before
    in the selected database or the selected table leaves the row number 0,
    the page null and the structure null, and the sort order null when the
    selected database differs. *)
Theorem selection_change_resets (sys sys' : Sys) :
  (exists l, updateDatabases l sys = Returned sys')
  \/ (exists database, updateSelectedDatabase database sys = Returned sys')
  \/ (exists table, updateSelectedDatabaseTable table sys = sys') ->
  selectionChanged (store sys) (store sys') ->
  pageRowNumber (store sys') = 0
  /\ currentPage (store sys') = None
  /\ currentStructure (store sys') = None
  /\ (selectedDatabase (store sys') <> selectedDatabase (store sys) ->
      currentSort (store sys') = None).
Proof.
  intros [[l H]|[[database H]|[table H]]] Hchanged.
  - apply updateDatabases_returned in H.
    destruct H as (entry & selectedTable & _ & _ & _ & _ & _ & Hrow & Hstructure & Hreset).
    destruct (Hreset Hchanged) as [Hpage Hsort].
    split; [exact Hrow|]. split; [exact Hpage|]. split; [exact Hstructure|].
    intros _. exact Hsort.
  - unfold updateSelectedDatabase in H.
    destruct (js_index (databases (store sys)) (database - 1)); cbn in H; [|discriminate].
    injection H as <-. repeat split.
  - subst sys'. repeat split.
Qed.

Lemma selection_change_resets_witness :
  selectionChanged (store initialSys)
    (store (updateSelectedDatabaseTable "T2" (with_store
       (set_currentSort (Some (SortOrder.mk "c" down)) initialState) initialSys)))
  /\ currentSort (store (updateSelectedDatabaseTable "T2" (with_store
       (set_currentSort (Some (SortOrder.mk "c" down)) initialState) initialSys))) = None
  /\ pageRowNumber (store (updateSelectedDatabaseTable "T2" (with_store
       (set_currentSort (Some (SortOrder.mk "c" down)) initialState) initialSys))) = 0.
Proof.
  assert (Hchanged : selectionChanged (store initialSys)
    (store (updateSelectedDatabaseTable "T2" (with_store
       (set_currentSort (Some (SortOrder.mk "c" down)) initialState) initialSys)))).
  { right. discriminate. }
  split; [exact Hchanged|].
  destruct (selection_change_resets
              (with_store (set_currentSort (Some (SortOrder.mk "c" down)) initialState)
                 initialSys)
              (updateSelectedDatabaseTable "T2" (with_store
                 (set_currentSort (Some (SortOrder.mk "c" down)) initialState) initialSys))
              (or_intror (or_intror (ex_intro _ "T2"%string eq_refl)))
              Hchanged) as (Hrow & _ & _ & _).
  split; [reflexivity|exact Hrow].
Defined.

(** ** Query execution *)

(** Whether it throws or not, a call of [execute] has sent its request. *)
Lemma execute_pending (text : string) (timeBefore : Z) (now : string) (sys : Sys) :
  pending (execute text timeBefore now sys).2 !! length (pending sys)
  = Some (ReqExecute (selectedDatabase (store sys)) text timeBefore).
Proof.
  unfold execute. cbn.
  destruct (query (store sys)) as [r|]; [destruct (bool_decide (r ∈ frozen sys))|];
    cbn; rewrite <- ?app_assoc; apply list_lookup_middle; reflexivity.
Qed.


Lemma execute_keeps_page (text : string) (timeBefore : Z) (now : string) (sys : Sys) :
  currentPage (store (execute text timeBefore now sys).2) = currentPage (store sys).
Proof.
  unfold execute. cbn.
  destruct (query (store sys)) as [r|]; [destruct (bool_decide (r ∈ frozen sys))|];
    reflexivity.
Qed.

Section Settling.

Variable convertStringToValue : TypeMap -> string -> option string -> Value.
Variable constructUpdateQuery :
  TableSel -> list (string * Cell Value) -> list (string * Value) -> string.

Variables (sys : Sys) (i : nat) (databaseId : Z) (text : string) (timeBefore : Z).
Hypothesis outstanding : pending sys !! i = Some (ReqExecute databaseId text timeBefore).





End Settling.


(** ** Query history *)

Lemma omap_pointwise {A B} (f g : A -> option B) (l : list A) :
  Forall (fun a => f a = g a) l -> omap f l = omap g l.
Proof.
  induction 1 as [|a l Ha _ IH]; [reflexivity|].
  cbn. rewrite Ha, IH. reflexivity.
Qed.

(** Writing the time of a query object leaves every text as it is. *)
Lemma stamped_value (now : string) (r r' : nat) (h : list Query.t) :
  Query.value <$> alter (fun q => Query.mk (Query.value q) now) r h !! r'
  = Query.value <$> h !! r'.
Proof.
  destruct (decide (r = r')) as [->|Hne].
  - rewrite list_lookup_alter_eq. destruct (h !! r'); reflexivity.
  - rewrite list_lookup_alter_ne by exact Hne. reflexivity.
Qed.

Lemma sameQueries_refl (sys : Sys) : sameQueries sys sys.
Proof. repeat split. Qed.

Lemma sameQueries_history (sys sys' : Sys) :
  sameQueries sys sys' -> wf sys -> wf sys' /\ historyTexts sys' = historyTexts sys.
Proof.
  intros (Hheap & Hquery & Hhistory) Hwf.
  unfold wf, historyTexts. rewrite Hheap, Hquery, Hhistory. split; [exact Hwf|reflexivity].
Qed.

Lemma updateDatabases_sameQueries (l : list DatabaseEntry.t) (sys sys' : Sys) :
  updateDatabases l sys = Returned sys' -> sameQueries sys sys'.
Proof.
  unfold updateDatabases. intros H.
  destruct (js_index (sort_by_id l) (derivedDatabase (store sys) (sort_by_id l) - 1))
    as [entry|];
    destruct (truthy_table (selectedDatabaseTable (store sys))) as [t|]; cbn in H;
    try discriminate.
  - destruct (includes (DatabaseEntry.tables entry) t); cbn in H;
      injection H as <-; repeat split.
  - injection H as <-; repeat split.
Qed.

Lemma updateFavorites_sameQueries (event : FavoritesArg) (sys : Sys) :
  sameQueries sys (updateFavorites event sys).2.
Proof.
  unfold updateFavorites.
  destruct event; destruct (query (store sys) ≫= (heap sys !!.)) as [q|]; cbn;
    try destruct (includes _ (Query.value q)); cbn;
    try destruct (favoritesFrozen sys); repeat split.
Qed.

Lemma resolve_sameQueries (r : Request) (resp : Response) (now : Z) (sys sys' : Sys) :
  resolve r resp now sys = Returned sys' -> sameQueries sys sys'.
Proof.
  destruct r, resp; cbn; intros H;
    try (injection H as <-; repeat split).
  apply updateDatabases_sameQueries in H. exact H.
Qed.

Lemma reject_sameQueries (r : Request) (e : Err) (sys : Sys) :
  sameQueries sys (reject r e sys).
Proof. destruct r; repeat split. Qed.

(** A call of [execute] throws exactly when the query object of the buffer
    is frozen. *)
Lemma execute_throws (text : string) (timeBefore : Z) (now : string) (sys : Sys) :
  (execute text timeBefore now sys).1
  = if bufferFrozen sys then Thrown TypeError else Returned tt.
Proof.
  unfold execute, bufferFrozen. cbn.
  destruct (query (store sys)) as [r|]; [|reflexivity].
  destruct (bool_decide (r ∈ frozen sys)); reflexivity.
Qed.

(** A call of [execute] appends the text of the buffer, if there is a query
    object in it and that object is not frozen, and nothing else. *)
Lemma execute_history (text : string) (timeBefore : Z) (now : string) (sys : Sys) :
  wf sys ->
  wf (execute text timeBefore now sys).2
  /\ historyTexts (execute text timeBefore now sys).2
     = historyTexts sys
       ++ (if bufferFrozen sys then [] else option_list (bufferText sys)).
Proof.
  intros [Hquery Hhistory].
  unfold execute, wf, historyTexts, bufferText, bufferFrozen. cbn.
  destruct (query (store sys)) as [r|] eqn:Hr; cbn.
  - destruct (bool_decide (r ∈ frozen sys)); cbn.
    + rewrite Hr, app_nil_r. split; [split; [exact Hquery|exact Hhistory]|reflexivity].
    + rewrite length_alter. split.
      * split; [intros r' Hr'; apply Hquery; rewrite <- Hr; exact Hr'|].
        apply Forall_app. split; [exact Hhistory|].
        apply Forall_singleton, Hquery. reflexivity.
      * rewrite omap_app. f_equal.
        -- apply omap_pointwise, Forall_forall. intros r' _. apply stamped_value.
        -- cbn. rewrite stamped_value.
           unfold QueryRef. destruct (heap sys !! r); reflexivity.
  - split; [split; [intros r' Hr'; rewrite Hr in Hr'; discriminate|exact Hhistory]|].
    rewrite app_nil_r. reflexivity.
Qed.

(** After a call of [execute] the query object of the buffer is frozen. *)
Lemma execute_freezes (text : string) (timeBefore : Z) (now : string) (sys : Sys) (r : QueryRef) :
  wf sys ->
  query (store sys) = Some r ->
  query (store (execute text timeBefore now sys).2) = Some r
  /\ bufferFrozen (execute text timeBefore now sys).2 = true.
Proof.
  intros [Hquery _] Hr. specialize (Hquery r Hr).
  unfold execute, bufferFrozen. cbn. rewrite Hr.
  destruct (bool_decide (r ∈ frozen sys)) eqn:Hfrozen; cbn.
  - rewrite Hr, Hfrozen. split; reflexivity.
  - rewrite Hr. split; [reflexivity|].
    apply bool_decide_eq_true. rewrite length_alter. apply elem_of_seq. lia.
Qed.

(** The query object [updateQuery] puts into the buffer is not frozen. *)
Lemma updateQuery_not_frozen (value now : string) (sys : Sys) :
  bufferFrozen (updateQuery value now sys) = false.
Proof.
  unfold bufferFrozen, updateQuery. cbn.
  apply bool_decide_eq_false. intros Hin.
  apply list_elem_of_filter in Hin. destruct Hin as [Hne _]. congruence.
Qed.

Lemma updateQuery_history (value now : string) (sys : Sys) :
  wf sys ->
  wf (updateQuery value now sys)
  /\ historyTexts (updateQuery value now sys) = historyTexts sys.
Proof.
  intros [Hquery Hhistory].
  unfold updateQuery, wf, historyTexts. cbn. rewrite length_app. cbn. split.
  - split; [intros r' [= <-]; lia|].
    eapply Forall_impl; [exact Hhistory|]. cbn. intros r' Hr'. lia.
  - apply omap_pointwise. eapply Forall_impl; [exact Hhistory|].
    cbn. intros r' Hr'. rewrite lookup_app_l by exact Hr'. reflexivity.
Qed.

Section History.

Variable convertStringToValue : TypeMap -> string -> option string -> Value.
Variable constructUpdateQuery :
  TableSel -> list (string * Cell Value) -> list (string * Value) -> string.

Lemma step_ended (sys sys' : Sys) (c : Completion unit) (ev : Event) :
  dispatch convertStringToValue constructUpdateQuery ev sys = (c, sys') ->
  step convertStringToValue constructUpdateQuery sys ev = sys'.
Proof. unfold step. intros ->. reflexivity. Qed.

(** One event: the history grows by the text submitted, if the event is a
    submission that reaches the history, and is the same after every other
    event, whatever a request was answered with. *)
Lemma step_history (sys : Sys) (ev : Event) :
  wf sys ->
  wf (step convertStringToValue constructUpdateQuery sys ev)
  /\ historyTexts (step convertStringToValue constructUpdateQuery sys ev)
     = historyTexts sys
       ++ (if submits convertStringToValue constructUpdateQuery sys ev
           then option_list (bufferText sys) else []).
Proof.
  intros Hwf.
  assert (Hsame : forall sys', sameQueries sys sys' ->
            wf sys' /\ historyTexts sys' = historyTexts sys ++ []).
  { intros sys' H. rewrite app_nil_r. apply sameQueries_history; assumption. }
  assert (Hexecute : forall text timeBefore now,
            wf (execute text timeBefore now sys).2
            /\ historyTexts (execute text timeBefore now sys).2
               = historyTexts sys
                 ++ (if negb (bufferFrozen sys) then option_list (bufferText sys) else [])).
  { intros text timeBefore now.
    destruct (execute_history text timeBefore now sys Hwf) as [Hwf' Htexts].
    split; [exact Hwf'|]. rewrite Htexts. destruct (bufferFrozen sys); reflexivity. }
  destruct ev;
    try (erewrite step_ended by reflexivity; unfold submits).
  - apply Hsame. apply (updateFavorites_sameQueries _ (send ReqDatabaseList sys)).
  - unfold step, dispatch, updateSelectedDatabase.
    destruct (js_index (databases (store sys)) (database - 1)); cbn;
      apply Hsame; repeat split.
  - apply Hsame. repeat split.
  - apply Hsame. repeat split.
  - apply Hsame. repeat split.
  - apply Hsame. repeat split.
  - apply Hsame. unfold goToRow. destruct (currentPage (store sys)); repeat split.
  - apply Hsame. repeat split.
  - apply Hsame. repeat split.
  - rewrite app_nil_r. apply updateQuery_history. exact Hwf.
  - unfold step, dispatch, submits. apply Hexecute.
  - apply Hsame. apply updateFavorites_sameQueries.
  - unfold step, dispatch, submits, onRowEdited.
    destruct (rowEdit convertStringToValue constructUpdateQuery change (store sys))
      as [[| message | statement page]|e]; cbn.
    + apply Hsame, sameQueries_refl.
    + apply Hsame. repeat split.
    + destruct (Hexecute statement timeBefore now) as [Hwf' Htexts].
      destruct (execute statement timeBefore now sys) as [[[]|e] executed]; cbn in *;
        split; first [exact Hwf' | exact Htexts].
    + apply Hsame, sameQueries_refl.
  - unfold step, dispatch, submits.
    destruct (pending sys !! i) as [r|] eqn:Hr; [|apply Hsame, sameQueries_refl].
    destruct (resolve r resp now (settled i sys)) as [sys'|e] eqn:Hres.
    + apply Hsame. apply resolve_sameQueries in Hres. exact Hres.
    + apply Hsame. repeat split.
  - unfold step, dispatch, submits.
    destruct (pending sys !! i) as [r|] eqn:Hr; [|apply Hsame, sameQueries_refl].
    apply Hsame. apply (reject_sameQueries r e (settled i sys)).
Qed.

(** Along a trace the history grows by the submissions that reach it, in
    their order. *)
Lemma run_history (trace : list Event) (sys : Sys) :
  wf sys ->
  wf (run convertStringToValue constructUpdateQuery sys trace)
  /\ historyTexts (run convertStringToValue constructUpdateQuery sys trace)
     = historyTexts sys
       ++ submissions convertStringToValue constructUpdateQuery sys trace.
Proof.
  revert sys. induction trace as [|ev rest IH]; intros sys Hwf; cbn.
  - rewrite app_nil_r. split; [exact Hwf|reflexivity].
  - destruct (step_history sys ev Hwf) as [Hwf' Hstep].
    destruct (IH _ Hwf') as [Hwf'' Hrest].
    split; [exact Hwf''|].
    unfold run in Hrest. rewrite Hrest, Hstep, app_assoc. reflexivity.
Qed.

Lemma settle_history (sys : Sys) (i : nat) (s : Settlement) :
  wf sys ->
  historyTexts (step convertStringToValue constructUpdateQuery sys (settle i s))
  = historyTexts sys.
Proof.
  intros Hwf. destruct (step_history sys (settle i s) Hwf) as [_ H].
  rewrite H. destruct s; cbn; apply app_nil_r.
Qed.

End History.

Lemma wf_initialSys : wf initialSys.
Proof. split; [intros r [=]|constructor]. Qed.

(** Queries "A" and "B" submitted one after the other.  When the request of
    "A" is settled before "B" is typed, or after "B" is submitted, the history
    has both.  When it is settled between the typing and the submission of
    "B", the buffer is frozen by then and the history has "A" alone. *)
Lemma history_A_then_B
    (convertStringToValue : TypeMap -> string -> option string -> Value)
    (constructUpdateQuery :
       TableSel -> list (string * Cell Value) -> list (string * Value) -> string)
    (first second : Settlement) :
  historyTexts
    (run convertStringToValue constructUpdateQuery initialSys
       [UpdateQuery "A" "10:00:00"; Execute "A" 0 "10:00:01"; settle 0 first;
        UpdateQuery "B" "10:00:02"; Execute "B" 5 "10:00:03"; settle 0 second])
  = ["A"; "B"]%string
  /\ historyTexts
       (run convertStringToValue constructUpdateQuery initialSys
          [UpdateQuery "A" "10:00:00"; Execute "A" 0 "10:00:01";
           UpdateQuery "B" "10:00:02"; Execute "B" 5 "10:00:03";
           settle 1 second; settle 0 first])
     = ["A"; "B"]%string
  /\ historyTexts
       (run convertStringToValue constructUpdateQuery initialSys
          [UpdateQuery "A" "10:00:00"; Execute "A" 0 "10:00:01";
           UpdateQuery "B" "10:00:02"; settle 0 first;
           Execute "B" 5 "10:00:03"; settle 0 second])
     = ["A"%string].
Proof.
  split; [|split].
  - destruct first as [[]|], second as [[]|]; reflexivity.
  - destruct first as [[]|], second as [[]|]; reflexivity.
  - destruct first as [[]|], second as [[]|]; reflexivity.
Qed.

(** C7, what the code does.  [execute] writes the time into the query object
    the state holds, and every [update] of the store freezes that object.  A
    call of [execute] sends its request in any case.  When the query object
    of the buffer is frozen it then throws a [TypeError] and the history is
    as before; only when that object is not frozen does the history get the
    text of the buffer.  After a call the object is frozen: a second call on
    the same buffer adds nothing.  Along a trace the history grows by the
    texts of the calls that found the buffer not frozen. *)
Theorem history_misses_frozen_buffer
    (convertStringToValue : TypeMap -> string -> option string -> Value)
    (constructUpdateQuery :
       TableSel -> list (string * Cell Value) -> list (string * Value) -> string)
    (sys : Sys) (trace : list Event) :
  wf sys ->
  (forall text timeBefore now,
      pending (execute text timeBefore now sys).2 !! length (pending sys)
      = Some (ReqExecute (selectedDatabase (store sys)) text timeBefore)
      /\ (execute text timeBefore now sys).1
         = (if bufferFrozen sys then Thrown TypeError else Returned tt)
      /\ historyTexts (execute text timeBefore now sys).2
         = historyTexts sys
           ++ (if bufferFrozen sys then [] else option_list (bufferText sys)))
  /\ (forall text timeBefore now text' timeBefore' now',
         historyTexts
           (execute text' timeBefore' now' (execute text timeBefore now sys).2).2
         = historyTexts (execute text timeBefore now sys).2)
  /\ historyTexts (run convertStringToValue constructUpdateQuery sys trace)
     = historyTexts sys
       ++ submissions convertStringToValue constructUpdateQuery sys trace.
Proof.
  intros Hwf. split; [|split].
  - intros text timeBefore now.
    split; [apply execute_pending|]. split; [apply execute_throws|].
    apply execute_history. exact Hwf.
  - intros text timeBefore now text' timeBefore' now'.
    destruct (execute_history text timeBefore now sys Hwf) as [Hwf' _].
    destruct (execute_history text' timeBefore' now' _ Hwf') as [_ Hsecond].
    rewrite Hsecond.
    destruct (query (store sys)) as [r|] eqn:Hr.
    + destruct (execute_freezes text timeBefore now sys r Hwf Hr) as [_ Hfrozen].
      rewrite Hfrozen. apply app_nil_r.
    + assert (Hnone : bufferText (execute text timeBefore now sys).2 = None).
      { unfold bufferText, execute. cbn. rewrite Hr. cbn. rewrite Hr. reflexivity. }
      rewrite Hnone. destruct (bufferFrozen _); apply app_nil_r.
  - apply run_history. exact Hwf.
Qed.

Lemma history_misses_frozen_buffer_witness :
  wf initialSys
  /\ historyTexts
       (replay initialSys
          [UpdateQuery "A" "10:00:00"; Execute "A" 0 "10:00:01"; Execute "A" 2 "10:00:02"])
     = ["A"%string]
  /\ pending
       (replay initialSys
          [UpdateQuery "A" "10:00:00"; Execute "A" 0 "10:00:01"; Execute "A" 2 "10:00:02"])
     = [ReqExecute 0 "A" 0; ReqExecute 0 "A" 2].
Proof.
  split; [exact wf_initialSys|]. split; [|reflexivity].
  destruct (history_misses_frozen_buffer
              (fun _ _ _ => VNull) (fun _ _ _ => EmptyString) initialSys
              [UpdateQuery "A" "10:00:00"; Execute "A" 0 "10:00:01";
               Execute "A" 2 "10:00:02"]
              wf_initialSys) as (_ & _ & Htrace).
  exact Htrace.
Defined.

(** ** Late answers of a page fetch *)

(** A page request of the subscriber carries the database id and the table
    selected in the state it was called with. *)
Lemma subscriber_page_request_key (newState previousState : DatabasesPluginState)
    (count databaseId : Z) (order : option string) (reverse : bool)
    (table : string) (start : Z) :
  ReqGetTableData count databaseId order reverse table start
    ∈ subscriber newState previousState ->
  databaseId = selectedDatabase newState
  /\ selectedDatabaseTable newState = TName table.
Proof.
  unfold subscriber. intros H.
  apply elem_of_app in H. destruct H as [H|H].
  2:{ destruct (negb _ && _); [|inversion H].
      apply list_elem_of_singleton in H. discriminate H. }
  case_bool_decide; [inversion H|].
  destruct (truthy_table (selectedDatabaseTable newState)) as [t|] eqn:Ht; [|inversion H].
  apply truthy_table_name in Ht.
  apply elem_of_app in H. destruct H as [H|H].
  - destruct (viewMode newState), (currentPage newState); try (inversion H; fail).
    apply list_elem_of_singleton in H. injection H as _ -> _ _ -> _.
    split; [reflexivity|exact Ht].
  - apply elem_of_app in H. destruct H as [H|H].
    + destruct (currentStructure newState); [inversion H|].
      apply list_elem_of_singleton in H. discriminate H.
    + destruct (viewMode newState), (currentStructure newState);
        try (inversion H; fail).
      apply list_elem_of_singleton in H. discriminate H.
Qed.

(** C1, as the code has it.  The answer of a page fetch is merged whatever is
    selected when it arrives: [currentPage] becomes the page of the answer,
    with the database id and the table the request was sent for, and the
    selection stays as it is.  The request was sent for the database id and
    the table selected at the time it was sent. *)
Theorem page_response_is_merged
    (convertStringToValue : TypeMap -> string -> option string -> Value)
    (constructUpdateQuery :
       TableSel -> list (string * Cell Value) -> list (string * Value) -> string)
    (sys : Sys) (i : nat) (count databaseId : Z) (order : option string)
    (reverse : bool) (table : string) (start : Z)
    (columns : list string) (values : list Row) (start' count' total' now : Z) :
  pending sys !! i = Some (ReqGetTableData count databaseId order reverse table start) ->
  let sys' := step convertStringToValue constructUpdateQuery sys
                (Resolve i (RespTableData columns values start' count' total') now) in
  currentPage (store sys')
  = Some (Page.mk databaseId table columns values start' count' total' [])
  /\ selectedDatabase (store sys') = selectedDatabase (store sys)
  /\ selectedDatabaseTable (store sys') = selectedDatabaseTable (store sys)
  /\ (forall newState previousState,
         ReqGetTableData count databaseId order reverse table start
           ∈ subscriber newState previousState ->
         databaseId = selectedDatabase newState
         /\ selectedDatabaseTable newState = TName table).
Proof.
  intros Hout. cbv zeta. unfold step, dispatch. rewrite Hout. cbn.
  repeat (split; [reflexivity|]).
  intros newState previousState. apply subscriber_page_request_key.
Qed.

Lemma page_response_is_merged_witness :
  pending (send (ReqGetTableData 50 1 None false "T1" 0) initialSys) !! 0%nat
  = Some (ReqGetTableData 50 1 None false "T1" 0)
  /\ currentPage
       (store (replay (send (ReqGetTableData 50 1 None false "T1" 0) initialSys)
                 [Resolve 0 (RespTableData ["c"%string] [] 0 0 0) 1]))
     = Some (Page.mk 1 "T1" ["c"%string] [] 0 0 0 []).
Proof.
  split; [reflexivity|].
  exact (proj1 (page_response_is_merged
                  (fun _ _ _ => VNull) (fun _ _ _ => EmptyString)
                  (send (ReqGetTableData 50 1 None false "T1" 0) initialSys)
                  0%nat 50 1 None false "T1"%string 0 ["c"%string] [] 0 0 0 1 eq_refl)).
Defined.

(** C1, counterexample.  After connecting, the list of databases arrives and
    table T1 of database 1 is selected; its page is requested.  The user
    selects T2 while that request is outstanding.  The answer for T1 then
    arrives: the page of T1 becomes [currentPage] while T2 is selected. *)
Lemma late_page_response_populates_currentPage :
  let before :=
    replay initialSys
      [Connect;
       Resolve 0 (RespDatabaseList [DatabaseEntry.mk 1 "main" ["T1"; "T2"]%string]) 0;
       UpdateSelectedDatabaseTable "T2"] in
  let after := replay before [Resolve 0 (RespTableData ["c"%string] [] 0 0 0) 1] in
  pending before !! 0%nat = Some (ReqGetTableData 50 1 None false "T1" 0)
  /\ selectedDatabaseTable (store before) = TName "T2"
  /\ currentPage (store before) = None
  /\ selectedDatabaseTable (store after) = TName "T2"
  /\ exists page, currentPage (store after) = Some page /\ Page.table page = "T1"%string.
Proof.
  vm_compute. repeat (split; [reflexivity|]).
  eexists. split; reflexivity.
Qed.

(** ** Favorites *)

(** C4, what the code does.  [updateFavorites] returns the state with the
    toggled list and writes that list to the storage, but it does not put the
    state into the store.  From an empty list and a buffer holding [Q], two
    calls in a row both return and persist the list of [Q] alone: the second
    call does not undo the first.  From a list holding [Q] the first call
    removes [Q] from the array of the state in place and the second call
    appends it to a copy, so the state has lost [Q] after the two calls. *)
Theorem updateFavorites_twice (Q now : string) :
  let empty := updateQuery Q now initialSys in
  let once := updateFavorites FavOfState empty in
  let twice := updateFavorites FavOfState once.2 in
  favorites (store empty) = []
  /\ once.1 = Returned (set_favorites [Q] (store empty))
  /\ storage once.2 = Some [Q]
  /\ favorites (store once.2) = []
  /\ twice.1 = Returned (set_favorites [Q] (store empty))
  /\ storage twice.2 = Some [Q]
  /\ favorites (store twice.2) = []
  /\ let holding := with_store (set_favorites [Q] (store empty)) empty in
     let once' := updateFavorites FavOfState holding in
     let twice' := updateFavorites FavOfState once'.2 in
     once'.1 = Returned (set_favorites [] (store empty))
     /\ favorites (store once'.2) = []
     /\ twice'.1 = Returned (set_favorites [Q] (store empty))
     /\ storage twice'.2 = Some [Q]
     /\ favorites (store twice'.2) = [].
Proof.
  cbv zeta. repeat (split; [reflexivity|]).
  unfold updateFavorites. cbn. unfold includes, indexOf. cbn.
  rewrite (bool_decide_eq_true_2 (Q ∈ [Q])) by apply list_elem_of_here.
  rewrite (bool_decide_eq_true_2 (Q = Q)) by reflexivity.
  cbn. repeat split.
Qed.

(** On a state that came out of an [update] the array of favorites is
    frozen: a toggle that has to remove throws, and neither the list of the
    state nor the storage has changed. *)
Example updateFavorites_on_frozen_array (Q now : string) :
  let holding :=
    update (fun state => state)
      (with_store (set_favorites [Q] (store (updateQuery Q now initialSys)))
         (updateQuery Q now initialSys)) in
  favorites (store holding) = [Q]
  /\ updateFavorites FavOfState holding = (Thrown TypeError, holding)
  /\ updateFavorites FavUndefined holding = (Thrown TypeError, holding).
Proof.
  cbv zeta. split; [reflexivity|].
  unfold updateFavorites. cbn. unfold includes.
  rewrite (bool_decide_eq_true_2 (Q ∈ [Q])) by apply list_elem_of_here.
  split; reflexivity.
Qed.

(** ** Row editing with structure columns missing *)

(** The entries of an object come in the order of enumeration: a key that
    is an array index goes before the keys that are not, whenever it was
    set. *)
Example obj_set_enumeration_order :
  obj_set (obj_set (obj_set (obj_set [] "name" 1) "10" 2) "2" 3) "01" 4
  = [("2", 3); ("10", 2); ("name", 1); ("01", 4)]%string
  /\ obj_set (obj_set (obj_set [] "name" 1) "2" 3) "name" 5
     = [("2", 3); ("name", 5)]%string.
Proof. split; reflexivity. Qed.

Lemma js_cell_negative (row : Row) (i : Z) : i < 0 -> js_cell row i = None.
Proof.
  intros Hi. unfold js_cell, js_index.
  rewrite bool_decide_eq_false_2 by lia. reflexivity.
Qed.

(** Without the [primary_key] column, or without the [column_name] column,
    the scan for primary keys finds none, if it returns at all. *)
Lemma primaryKeyNames_missing (rows : list Row) (primaryKeyIdx nameKeyIdx : Z)
    (acc names : list string) :
  primaryKeyIdx < 0 \/ nameKeyIdx < 0 ->
  primaryKeyNames rows primaryKeyIdx nameKeyIdx acc = Returned names ->
  names = acc.
Proof.
  intros Hmissing. revert acc.
  induction rows as [|row rest IH]; intros acc H; cbn in H.
  - injection H as <-. reflexivity.
  - destruct (js_cell row primaryKeyIdx) as [primary|] eqn:Hprimary; cbn in H;
      [|discriminate].
    destruct Hmissing as [Hp|Hn].
    { rewrite (js_cell_negative row primaryKeyIdx Hp) in Hprimary. discriminate. }
    destruct primary as [|[|]| | | | |]; cbn in H; try (apply IH; exact H).
    rewrite (js_cell_negative row nameKeyIdx Hn) in H. cbn in H. discriminate.
Qed.

(** Without the [data_type] column the scan for types throws at the first
    row of the structure. *)
Lemma columnTypes_missing (rows : list Row) (nameKeyIdx typeIdx nullableIdx : Z)
    (acc types : TypeMap) :
  typeIdx < 0 ->
  columnTypes rows nameKeyIdx typeIdx nullableIdx acc = Returned types ->
  rows = [].
Proof.
  intros Hmissing H. destruct rows as [|row rest]; [reflexivity|].
  cbn in H. destruct (js_cell row nameKeyIdx); cbn in H; [|discriminate].
  rewrite (js_cell_negative row typeIdx Hmissing) in H. cbn in H. discriminate.
Qed.

(** When one of the three columns is missing, no statement is built and no
    page is stored: the edit is ignored, rejected, or its handler throws. *)
Lemma rowEdit_missing_column_never_emits
    (convertStringToValue : TypeMap -> string -> option string -> Value)
    (constructUpdateQuery :
       TableSel -> list (string * Cell Value) -> list (string * Value) -> string)
    (change : list (string * option string)) (state : DatabasesPluginState)
    (structure : Structure.t) (statement : string) (page : Page.t) :
  currentStructure state = Some structure ->
  indexOf (Structure.columns structure) "primary_key" < 0
  \/ indexOf (Structure.columns structure) "column_name" < 0
  \/ indexOf (Structure.columns structure) "data_type" < 0 ->
  rowEdit convertStringToValue constructUpdateQuery change state
  <> Returned (EditEmitted statement page).
Proof.
  intros Hstructure Hmissing H. unfold rowEdit in H. rewrite Hstructure in H.
  repeat match type of H with
         | context [match ?x with _ => _ end] =>
             lazymatch x with
             | primaryKeyNames _ _ _ _ => fail
             | columnTypes _ _ _ _ _ => fail
             | _ => destruct x eqn:?; try discriminate
             end
         end.
  all: destruct (primaryKeyNames _ _ _ _) as [names|] eqn:Hnames; cbn in H;
    [|discriminate].
  all: destruct Hmissing as [Hp|[Hn|Ht]];
    [ apply primaryKeyNames_missing in Hnames; [|left; exact Hp];
      subst names; cbn in H; discriminate
    | apply primaryKeyNames_missing in Hnames; [|right; exact Hn];
      subst names; cbn in H; discriminate
    | ].
  all: destruct (bool_decide (_ <= 0)%nat) eqn:Hlen; [discriminate|].
  all: destruct (columnTypes _ _ _ _ _) as [types|] eqn:Htypes; cbn in H;
    [|discriminate].
  all: apply columnTypes_missing in Htypes; [|exact Ht].
  all: rewrite Htypes in Hnames; cbn in Hnames; injection Hnames as <-.
  all: cbn in Hlen; discriminate.
Qed.

(** C2, what the code does.  The check before the scan rejects the edit, with
    the error on the console, only when all three of [primary_key],
    [column_name] and [data_type] are missing.  With [data_type] alone missing
    and a primary key in the structure, or with [primary_key] alone missing,
    the handler reads a cell of [undefined] and throws a [TypeError]: nothing
    is logged, no statement is sent, and the instance stays as it was. *)
Theorem onRowEdited_missing_column_throws
    (convertStringToValue : TypeMap -> string -> option string -> Value)
    (constructUpdateQuery :
       TableSel -> list (string * Cell Value) -> list (string * Value) -> string) :
  let page :=
    Page.mk 1 "users" ["id"; "name"]%string
      [[Some (VNumber 7); Some (VString "Al")]] 0 1 1 [0] in
  let editing structure :=
    with_store
      (set_currentStructure (Some structure)
         (set_currentPage (Some page)
            (set_selectedDatabaseTable (TName "users")
               (set_selectedDatabase 1 initialState))))
      initialSys in
  let change := [("name"%string, Some "Bob"%string)] in
  let noType :=
    Structure.mk 1 "users" ["column_name"; "primary_key"]%string
      [[Some (VString "id"); Some (VBoolean true)]] [] [] in
  let noKey :=
    Structure.mk 1 "users" ["column_name"; "data_type"]%string
      [[Some (VString "id"); Some (VString "INTEGER")]] [] [] in
  let none :=
    Structure.mk 1 "users" ["nullable"%string] [[Some (VBoolean false)]] [] [] in
  let edit structure :=
    onRowEdited convertStringToValue constructUpdateQuery change 0 "10:00:00"
      (editing structure) in
  let after structure :=
    step convertStringToValue constructUpdateQuery (editing structure)
      (RowEdited change 0 "10:00:00") in
  indexOf (Structure.columns noType) "data_type" = -1
  /\ edit noType = (Thrown TypeError, editing noType)
  /\ after noType = editing noType
  /\ indexOf (Structure.columns noKey) "primary_key" = -1
  /\ edit noKey = (Thrown TypeError, editing noKey)
  /\ after noKey = editing noKey
  /\ edit none
     = (Returned tt, with_console [missingColumnsMessage] (editing none)).
Proof. cbv zeta. repeat split. Qed.

(** An edit that passes the checks: [id] is the primary key of the structure,
    the row with [id] 7 is highlighted and its [name] is edited.  The
    statement is built from the table, the key cell of the row as it was and
    the converted value, and the page stored has the new value in the [name]
    cell of that row only. *)
Example rowEdit_emits
    (convertStringToValue : TypeMap -> string -> option string -> Value)
    (constructUpdateQuery :
       TableSel -> list (string * Cell Value) -> list (string * Value) -> string) :
  let types := [("id", ("INTEGER", false)); ("name", ("TEXT", true))]%string in
  let bob := convertStringToValue types "name" (Some "Bob"%string) in
  rowEdit convertStringToValue constructUpdateQuery [("name"%string, Some "Bob"%string)]
    (set_currentStructure
       (Some (Structure.mk 1 "users"
                ["column_name"; "data_type"; "nullable"; "primary_key"]%string
                [[Some (VString "id"); Some (VString "INTEGER");
                  Some (VBoolean false); Some (VBoolean true)];
                 [Some (VString "name"); Some (VString "TEXT");
                  Some (VBoolean true); Some (VBoolean false)]] [] []))
       (set_currentPage
          (Some (Page.mk 1 "users" ["id"; "name"]%string
                   [[Some (VNumber 6); Some (VString "Al")];
                    [Some (VNumber 7); Some (VString "Bo")]] 0 2 2 [1]))
          (set_selectedDatabaseTable (TName "users")
             (set_selectedDatabase 1 initialState))))
  = Returned
      (EditEmitted
         (constructUpdateQuery (TName "users") [("id"%string, Some (VNumber 7))]
            [("name"%string, bob)])
         (Page.mk 1 "users" ["id"; "name"]%string
            [[Some (VNumber 6); Some (VString "Al")];
             [Some (VNumber 7); Some bob]] 0 2 2 [1])).
Proof. reflexivity. Qed.

(** X23.  With one of the three columns missing, a row edit leaves the state, the
    query objects and the outstanding requests as they were. *)
Lemma onRowEdited_missing_column_keeps_state
    (convertStringToValue : TypeMap -> string -> option string -> Value)
    (constructUpdateQuery :
       TableSel -> list (string * Cell Value) -> list (string * Value) -> string)
    (change : list (string * option string)) (timeBefore : Z) (now : string)
    (sys : Sys) (structure : Structure.t) :
  currentStructure (store sys) = Some structure ->
  indexOf (Structure.columns structure) "primary_key" < 0
  \/ indexOf (Structure.columns structure) "column_name" < 0
  \/ indexOf (Structure.columns structure) "data_type" < 0 ->
  let sys' := step convertStringToValue constructUpdateQuery sys
                (RowEdited change timeBefore now) in
  store sys' = store sys /\ heap sys' = heap sys /\ pending sys' = pending sys
  /\ storage sys' = storage sys.
Proof.
  intros Hstructure Hmissing. cbv zeta. unfold step, dispatch, onRowEdited.
  pose proof (rowEdit_missing_column_never_emits convertStringToValue
                constructUpdateQuery change (store sys) structure) as Hnever.
  destruct (rowEdit convertStringToValue constructUpdateQuery change (store sys))
    as [[| message | statement page]|e]; cbn; try (repeat split; fail).
  exfalso. exact (Hnever statement page Hstructure Hmissing eq_refl).
Qed.

(** ** The sorted list of databases *)

Lemma insert_by_id_filter (k : Z) (d : DatabaseEntry.t) (l : list DatabaseEntry.t) :
  filter (fun e => DatabaseEntry.id e = k) (insert_by_id d l)
  = filter (fun e => DatabaseEntry.id e = k) (d :: l).
Proof.
  induction l as [|e l IH]; [reflexivity|].
  cbn. case_bool_decide as Hle; [reflexivity|].
  rewrite filter_cons, IH, !filter_cons.
  destruct (decide (DatabaseEntry.id e = k)) as [He|He];
    destruct (decide (DatabaseEntry.id d = k)) as [Hd|Hd]; try reflexivity.
  lia.
Qed.

Lemma sort_by_id_filter (k : Z) (l : list DatabaseEntry.t) :
  filter (fun e => DatabaseEntry.id e = k) (sort_by_id l)
  = filter (fun e => DatabaseEntry.id e = k) l.
Proof.
  induction l as [|d l IH]; [reflexivity|].
  cbn. fold (sort_by_id l). rewrite insert_by_id_filter, !filter_cons, IH. reflexivity.
Qed.

(** X1.  The list [updateDatabases] stores holds the entries it was given, in
    ascending order of their ids, entries of one id in their order of
    arrival. *)
Theorem updateDatabases_stores_sorted (l : list DatabaseEntry.t) (sys sys' : Sys) :
  updateDatabases l sys = Returned sys' ->
  databases (store sys') ≡ₚ l
  /\ StronglySorted (fun a b => DatabaseEntry.id a <= DatabaseEntry.id b)
       (databases (store sys'))
  /\ (forall k, filter (fun e => DatabaseEntry.id e = k) (databases (store sys'))
                = filter (fun e => DatabaseEntry.id e = k) l)
  /\ outdatedDatabaseList (store sys') = false.
Proof.
  intros H.
  assert (Hout : outdatedDatabaseList (store sys') = false).
  { unfold updateDatabases in H.
    destruct (js_index (sort_by_id l) (derivedDatabase (store sys) (sort_by_id l) - 1))
      as [entry|];
      destruct (truthy_table (selectedDatabaseTable (store sys))) as [t|]; cbn in H;
      try discriminate.
    - destruct (includes (DatabaseEntry.tables entry) t); cbn in H;
        injection H as <-; reflexivity.
    - injection H as <-; reflexivity. }
  apply updateDatabases_returned in H.
  destruct H as (_ & _ & _ & _ & Hdbs & _). rewrite Hdbs.
  split; [apply sort_by_id_perm|]. split; [apply sort_by_id_sorted|].
  split; [intros k; apply sort_by_id_filter|exact Hout].
Qed.

Lemma updateDatabases_stores_sorted_witness :
  updateDatabases
    [DatabaseEntry.mk 2 "b" ["y"%string]; DatabaseEntry.mk 1 "a" ["x"%string]] initialSys
  = Returned
      (set (set_databases
              [DatabaseEntry.mk 1 "a" ["x"%string]; DatabaseEntry.mk 2 "b" ["y"%string]]
              (set_outdatedDatabaseList false
                 (set_selectedDatabase 1
                    (set_selectedDatabaseTable (TName "x") initialState))))
         initialSys)
  /\ [DatabaseEntry.mk 1 "a" ["x"%string]; DatabaseEntry.mk 2 "b" ["y"%string]]
     ≡ₚ [DatabaseEntry.mk 2 "b" ["y"%string]; DatabaseEntry.mk 1 "a" ["x"%string]].
Proof.
  split; [reflexivity|].
  exact (proj1 (updateDatabases_stores_sorted
                  [DatabaseEntry.mk 2 "b" ["y"%string]; DatabaseEntry.mk 1 "a" ["x"%string]]
                  initialSys _ eq_refl)).
Defined.

(** X2.  The database [updateDatabases] selects: the one selected before; with
    none selected before (id 0), the entry of the smallest id of the list. *)
Theorem updateDatabases_default_database (l : list DatabaseEntry.t) (sys sys' : Sys) :
  updateDatabases l sys = Returned sys' ->
  (selectedDatabase (store sys) <> 0 ->
   selectedDatabase (store sys') = selectedDatabase (store sys))
  /\ (selectedDatabase (store sys) = 0 ->
      (exists e, e ∈ l /\ DatabaseEntry.id e = selectedDatabase (store sys'))
      /\ forall e, e ∈ l -> selectedDatabase (store sys') <= DatabaseEntry.id e).
Proof.
  intros H. apply updateDatabases_returned in H.
  destruct H as (entry & _ & Hentry & _ & _ & Hd & _).
  rewrite Hd. unfold derivedDatabase. split.
  - intros Hsel. rewrite bool_decide_eq_false_2 by exact Hsel. reflexivity.
  - intros Hsel. rewrite bool_decide_eq_true_2 by exact Hsel.
    pose proof (sort_by_id_perm l) as Hperm.
    pose proof (sort_by_id_sorted l) as Hsorted.
    destruct (sort_by_id l) as [|d rest] eqn:Hsort.
    { unfold js_index in Hentry. case_bool_decide; discriminate. }
    split.
    + exists d. split; [|reflexivity]. rewrite <- Hperm. apply list_elem_of_here.
    + intros e He. rewrite <- Hperm in He.
      apply elem_of_cons in He. destruct He as [->|He]; [lia|].
      apply StronglySorted_inv in Hsorted. destruct Hsorted as [_ Hall].
      rewrite Forall_forall in Hall. apply Hall. exact He.
Qed.

Lemma updateDatabases_default_database_witness :
  updateDatabases
    [DatabaseEntry.mk 2 "b" ["y"%string]; DatabaseEntry.mk 1 "a" ["x"%string]] initialSys
  = Returned
      (set (set_databases
              [DatabaseEntry.mk 1 "a" ["x"%string]; DatabaseEntry.mk 2 "b" ["y"%string]]
              (set_outdatedDatabaseList false
                 (set_selectedDatabase 1
                    (set_selectedDatabaseTable (TName "x") initialState))))
         initialSys)
  /\ (forall e,
        e ∈ [DatabaseEntry.mk 2 "b" ["y"%string]; DatabaseEntry.mk 1 "a" ["x"%string]] ->
        1 <= DatabaseEntry.id e).
Proof.
  split; [reflexivity|].
  exact (proj2 (proj2 (updateDatabases_default_database
                  [DatabaseEntry.mk 2 "b" ["y"%string]; DatabaseEntry.mk 1 "a" ["x"%string]]
                  initialSys _ eq_refl) eq_refl)).
Defined.

(** X3.  A list of databases that still has the selected table at the position of
    the selected database leaves the selection, the page and the sort order
    as they are; the row number goes back to 0 and the structure is dropped
    all the same. *)
Theorem updateDatabases_same_selection (l : list DatabaseEntry.t) (sys : Sys)
    (table : string) (entry : DatabaseEntry.t) :
  selectedDatabase (store sys) <> 0 ->
  selectedDatabaseTable (store sys) = TName table ->
  table <> EmptyString ->
  js_index (sort_by_id l) (selectedDatabase (store sys) - 1) = Some entry ->
  table ∈ DatabaseEntry.tables entry ->
  exists sys',
    updateDatabases l sys = Returned sys'
    /\ selectedDatabase (store sys') = selectedDatabase (store sys)
    /\ selectedDatabaseTable (store sys') = TName table
    /\ currentPage (store sys') = currentPage (store sys)
    /\ currentSort (store sys') = currentSort (store sys)
    /\ pageRowNumber (store sys') = 0
    /\ currentStructure (store sys') = None.
Proof.
  intros Hd Ht Hne Hentry Hin.
  unfold updateDatabases, derivedDatabase.
  rewrite (bool_decide_eq_false_2 _ Hd), Ht, Hentry. cbn.
  rewrite (bool_decide_eq_false_2 _ Hne). cbn.
  apply includes_elem_of in Hin. rewrite Hin. cbn.
  eexists. split; [reflexivity|]. cbn.
  rewrite !bool_decide_eq_true_2 by reflexivity. cbn.
  repeat split; reflexivity.
Qed.

Lemma updateDatabases_same_selection_witness :
  exists sys',
    updateDatabases [DatabaseEntry.mk 1 "a" ["x"; "y"]%string]
      (with_store
         (set_pageRowNumber 100
            (set_selectedDatabaseTable (TName "y") (set_selectedDatabase 1 initialState)))
         initialSys)
    = Returned sys'
    /\ selectedDatabaseTable (store sys') = TName "y"
    /\ pageRowNumber (store sys') = 0.
Proof.
  destruct (updateDatabases_same_selection
              [DatabaseEntry.mk 1 "a" ["x"; "y"]%string]
              (with_store
                 (set_pageRowNumber 100
                    (set_selectedDatabaseTable (TName "y")
                       (set_selectedDatabase 1 initialState)))
                 initialSys)
              "y"%string (DatabaseEntry.mk 1 "a" ["x"; "y"]%string))
    as (sys' & Hcall & _ & Ht & _ & _ & Hrow & _).
  - discriminate.
  - reflexivity.
  - discriminate.
  - reflexivity.
  - apply list_elem_of_further, list_elem_of_here.
  - exists sys'. split; [exact Hcall|]. split; [exact Ht|exact Hrow].
Defined.

(** ** What the subscriber fetches *)

(** The fetches for a state with a database and a table selected. *)
Lemma subscriber_selected (newState previousState : DatabasesPluginState) (table : string) :
  selectedDatabase newState <> 0 ->
  selectedDatabaseTable newState = TName table ->
  table <> EmptyString ->
  subscriber newState previousState
  = (match viewMode newState, currentPage newState with
     | ViewData, None =>
         [ReqGetTableData PAGE_SIZE (selectedDatabase newState)
            (SortOrder.key <$> currentSort newState)
            (match currentSort newState with
             | Some o => match SortOrder.direction o with down => true | up => false end
             | None => false
             end)
            table (pageRowNumber newState)]
     | _, _ => []
     end)
    ++ (match currentStructure newState with
        | None => [ReqGetTableStructure (selectedDatabase newState) table]
        | Some _ => []
        end)
    ++ (match viewMode newState, currentStructure newState with
        | ViewTableInfo, None => [ReqGetTableInfo (selectedDatabase newState) table]
        | _, _ => []
        end)
    ++ (if negb (outdatedDatabaseList previousState) && outdatedDatabaseList newState
        then [ReqDatabaseList] else []).
Proof.
  intros Hd Ht Hne. unfold subscriber.
  rewrite (bool_decide_eq_false_2 _ Hd), Ht. cbn.
  rewrite (bool_decide_eq_false_2 _ Hne). rewrite <- !app_assoc. reflexivity.
Qed.

Ltac not_among :=
  let H := fresh "Hin" in
  intros H;
  repeat (apply elem_of_cons in H; destruct H as [H|H]; [discriminate H|]);
  inversion H.

Ltac distinct_requests :=
  repeat (apply NoDup_cons_2; [not_among|]); apply NoDup_nil_2.

Ltac among :=
  first [apply list_elem_of_here | apply list_elem_of_further; among].

(** X4.  Every fetch the subscriber issues has its trigger: a page only in the
    data view with no page loaded, for 50 rows from the row number of the
    state in its sort order; a structure only when none is loaded; a table
    definition only in the table-info view when no structure is loaded, and
    then together with the structure; each of them only for a selected
    database (not 0) and a selected table (a non-empty name), which the
    request carries; the list of databases only when the list has just
    become outdated.  No request is issued twice for one change. *)
Theorem subscriber_sound (newState previousState : DatabasesPluginState) (r : Request) :
  r ∈ subscriber newState previousState ->
  NoDup (subscriber newState previousState)
  /\ match r with
     | ReqDatabaseList =>
         outdatedDatabaseList previousState = false
         /\ outdatedDatabaseList newState = true
     | ReqGetTableData count databaseId order reverse table start =>
         count = 50 /\ databaseId = selectedDatabase newState /\ databaseId <> 0
         /\ selectedDatabaseTable newState = TName table /\ table <> EmptyString
         /\ order = (SortOrder.key <$> currentSort newState)
         /\ (reverse = true <->
             SortOrder.direction <$> currentSort newState = Some down)
         /\ start = pageRowNumber newState
         /\ viewMode newState = ViewData /\ currentPage newState = None
     | ReqGetTableStructure databaseId table =>
         databaseId = selectedDatabase newState /\ databaseId <> 0
         /\ selectedDatabaseTable newState = TName table /\ table <> EmptyString
         /\ currentStructure newState = None
     | ReqGetTableInfo databaseId table =>
         databaseId = selectedDatabase newState /\ databaseId <> 0
         /\ selectedDatabaseTable newState = TName table /\ table <> EmptyString
         /\ viewMode newState = ViewTableInfo /\ currentStructure newState = None
         /\ ReqGetTableStructure databaseId table ∈ subscriber newState previousState
     | ReqExecute _ _ _ => False
     end.
Proof.
  intros Hr.
  destruct (decide (selectedDatabase newState = 0)) as [Hd|Hd].
  { unfold subscriber in *. rewrite (bool_decide_eq_true_2 _ Hd) in *. cbn in *.
    destruct (outdatedDatabaseList previousState), (outdatedDatabaseList newState);
      cbn in *; try (inversion Hr; fail).
    apply list_elem_of_singleton in Hr. subst r.
    split; [apply NoDup_singleton|split; reflexivity]. }
  destruct (truthy_table (selectedDatabaseTable newState)) as [table|] eqn:Htruthy.
  2:{ unfold subscriber in *. rewrite (bool_decide_eq_false_2 _ Hd), Htruthy in *. cbn in *.
      destruct (outdatedDatabaseList previousState), (outdatedDatabaseList newState);
        cbn in *; try (inversion Hr; fail).
      apply list_elem_of_singleton in Hr. subst r.
      split; [apply NoDup_singleton|split; reflexivity]. }
  pose proof (truthy_table_name _ _ Htruthy) as Ht.
  assert (Hne : table <> EmptyString).
  { intros ->. rewrite Ht in Htruthy. cbn in Htruthy. discriminate. }
  rewrite (subscriber_selected newState previousState table Hd Ht Hne) in *.
  destruct (viewMode newState) eqn:Hview, (currentPage newState) eqn:Hpage,
    (currentStructure newState) eqn:Hstructure,
    (outdatedDatabaseList previousState) eqn:Hprev,
    (outdatedDatabaseList newState) eqn:Hnew; cbn in *;
    (split; [distinct_requests|]);
    repeat (apply elem_of_cons in Hr; destruct Hr as [->|Hr]);
    try (inversion Hr; fail);
    repeat (split; try reflexivity; try assumption; try among);
    try (destruct (currentSort newState) as [[key []]|]; cbn; congruence).
Qed.

Lemma subscriber_sound_witness :
  ReqGetTableInfo 1 "t"
    ∈ subscriber
        (set_viewMode ViewTableInfo
           (set_selectedDatabaseTable (TName "t") (set_selectedDatabase 1 initialState)))
        initialState
  /\ ReqGetTableStructure 1 "t"
       ∈ subscriber
           (set_viewMode ViewTableInfo
              (set_selectedDatabaseTable (TName "t") (set_selectedDatabase 1 initialState)))
           initialState.
Proof.
  assert (H : ReqGetTableInfo 1 "t"
    ∈ subscriber
        (set_viewMode ViewTableInfo
           (set_selectedDatabaseTable (TName "t") (set_selectedDatabase 1 initialState)))
        initialState).
  { apply list_elem_of_further, list_elem_of_here. }
  split; [exact H|].
  exact (proj2 (proj2 (proj2 (proj2 (proj2 (proj2 (proj2
           (subscriber_sound _ _ _ H)))))))).
Defined.

(** ** Paging, sorting and selecting *)

(** X5.  [previousPage] never leaves a negative row number; a step forward and a
    step back return to a row number that was not negative, and a step back
    and a step forward to one that was at least 50.  Both steps drop the
    page. *)
Theorem paging_round_trip (sys : Sys) :
  let row := pageRowNumber (store sys) in
  0 <= pageRowNumber (store (previousPage sys))
  /\ (row <= 50 -> pageRowNumber (store (previousPage sys)) = 0)
  /\ (0 <= row -> pageRowNumber (store (previousPage (nextPage sys))) = row)
  /\ (50 <= row -> pageRowNumber (store (nextPage (previousPage sys))) = row)
  /\ currentPage (store (nextPage sys)) = None
  /\ currentPage (store (previousPage sys)) = None.
Proof.
  cbv zeta. unfold previousPage, nextPage, update, PAGE_SIZE. cbn.
  repeat split; lia.
Qed.

(** X6.  With a page loaded in the data view, a step forward or back requests the
    50 rows from the new row number, for the selected database and table in
    the sort order of the state, and the structure again if none is loaded;
    nothing else is requested. *)
Theorem paging_requests (sys : Sys) (page : Page.t) (table : string) :
  currentPage (store sys) = Some page ->
  viewMode (store sys) = ViewData ->
  selectedDatabase (store sys) <> 0 ->
  selectedDatabaseTable (store sys) = TName table ->
  table <> EmptyString ->
  let state := store sys in
  let request start :=
    ReqGetTableData 50 (selectedDatabase state) (SortOrder.key <$> currentSort state)
      (match currentSort state with
       | Some o => match SortOrder.direction o with down => true | up => false end
       | None => false
       end)
      table start in
  let structure :=
    match currentStructure state with
    | None => [ReqGetTableStructure (selectedDatabase state) table]
    | Some _ => []
    end in
  pending (nextPage sys)
  = pending sys ++ [request (pageRowNumber state + 50)] ++ structure
  /\ pending (previousPage sys)
     = pending sys ++ [request (Z.max (pageRowNumber state - 50) 0)] ++ structure.
Proof.
  intros Hpage Hview Hd Ht Hne. cbv zeta.
  unfold nextPage, previousPage, update, set. cbn.
  rewrite !(subscriber_selected _ _ table) by assumption. cbn.
  rewrite Hview. cbn.
  destruct (currentStructure (store sys)), (outdatedDatabaseList (store sys));
    split; reflexivity.
Qed.

Lemma paging_requests_witness :
  pending
    (nextPage
       (with_store
          (set_currentPage (Some (Page.mk 1 "t" ["c"%string] [] 0 50 120 []))
             (set_selectedDatabaseTable (TName "t") (set_selectedDatabase 1 initialState)))
          initialSys))
  = [ReqGetTableData 50 1 None false "t" 50; ReqGetTableStructure 1 "t"].
Proof.
  exact (proj1 (paging_requests
                  (with_store
                     (set_currentPage (Some (Page.mk 1 "t" ["c"%string] [] 0 50 120 []))
                        (set_selectedDatabaseTable (TName "t")
                           (set_selectedDatabase 1 initialState)))
                     initialSys)
                  (Page.mk 1 "t" ["c"%string] [] 0 50 120 []) "t"%string
                  eq_refl eq_refl ltac:(discriminate) eq_refl ltac:(discriminate))).
Defined.

(** X7.  A new sort order goes back to row 0 and drops the page; in the data view
    it requests the first 50 rows in that order, reversed exactly for the
    direction [down]. *)
Theorem sortByChanged_requests (sys : Sys) (sortOrder : SortOrder.t) (table : string) :
  viewMode (store sys) = ViewData ->
  selectedDatabase (store sys) <> 0 ->
  selectedDatabaseTable (store sys) = TName table ->
  table <> EmptyString ->
  let sys' := sortByChanged sortOrder sys in
  pageRowNumber (store sys') = 0
  /\ currentPage (store sys') = None
  /\ currentSort (store sys') = Some sortOrder
  /\ exists rest,
      pending sys'
      = pending sys
        ++ ReqGetTableData 50 (selectedDatabase (store sys)) (Some (SortOrder.key sortOrder))
             (match SortOrder.direction sortOrder with down => true | up => false end)
             table 0 :: rest
      /\ forall r, r ∈ rest -> r = ReqGetTableStructure (selectedDatabase (store sys)) table.
Proof.
  intros Hview Hd Ht Hne. cbv zeta.
  repeat (split; [reflexivity|]).
  unfold sortByChanged, set. cbn.
  rewrite (subscriber_selected _ _ table) by assumption. cbn.
  rewrite Hview. cbn.
  destruct (currentStructure (store sys)), (outdatedDatabaseList (store sys)); cbn;
    eexists; (split; [reflexivity|]); intros r Hr;
    repeat (apply elem_of_cons in Hr; destruct Hr as [->|Hr]);
    try reflexivity; inversion Hr.
Qed.

Lemma sortByChanged_requests_witness :
  exists rest,
    pending
      (sortByChanged (SortOrder.mk "c" down)
         (with_store
            (set_pageRowNumber 100
               (set_selectedDatabaseTable (TName "t") (set_selectedDatabase 1 initialState)))
            initialSys))
    = [] ++ ReqGetTableData 50 1 (Some "c"%string) true "t" 0 :: rest
    /\ forall r, r ∈ rest -> r = ReqGetTableStructure 1 "t".
Proof.
  exact (proj2 (proj2 (proj2
           (sortByChanged_requests
              (with_store
                 (set_pageRowNumber 100
                    (set_selectedDatabaseTable (TName "t")
                       (set_selectedDatabase 1 initialState)))
                 initialSys)
              (SortOrder.mk "c" down) "t"%string
              eq_refl ltac:(discriminate) eq_refl ltac:(discriminate))))).
Defined.

(** X8.  Selecting a table of the selected database requests its structure, in the
    data view its first 50 rows unsorted before that, and in the table-info
    view its definition after that; nothing else. *)
Theorem updateSelectedDatabaseTable_requests (sys : Sys) (table : string) :
  selectedDatabase (store sys) <> 0 ->
  table <> EmptyString ->
  pending (updateSelectedDatabaseTable table sys)
  = pending sys
    ++ (match viewMode (store sys) with
        | ViewData => [ReqGetTableData 50 (selectedDatabase (store sys)) None false table 0]
        | _ => []
        end)
    ++ [ReqGetTableStructure (selectedDatabase (store sys)) table]
    ++ (match viewMode (store sys) with
        | ViewTableInfo => [ReqGetTableInfo (selectedDatabase (store sys)) table]
        | _ => []
        end).
Proof.
  intros Hd Hne. unfold updateSelectedDatabaseTable, set. cbn.
  rewrite (subscriber_selected _ _ table) by (cbn; first [assumption|reflexivity]). cbn.
  destruct (viewMode (store sys)), (outdatedDatabaseList (store sys)); reflexivity.
Qed.

Lemma updateSelectedDatabaseTable_requests_witness :
  pending
    (updateSelectedDatabaseTable "t" (with_store (set_selectedDatabase 1 initialState) initialSys))
  = [ReqGetTableData 50 1 None false "t" 0; ReqGetTableStructure 1 "t"].
Proof.
  exact (updateSelectedDatabaseTable_requests
           (with_store (set_selectedDatabase 1 initialState) initialSys) "t"%string
           ltac:(discriminate) ltac:(discriminate)).
Defined.

(** X9.  Once a structure is loaded, entering the table-info view requests
    nothing: the table definition shown is the text the state already has. *)
Theorem tableInfo_view_with_structure_loaded (sys : Sys) (structure : Structure.t) :
  currentStructure (store sys) = Some structure ->
  pending (updateViewMode ViewTableInfo sys) = pending sys
  /\ tableInfo (store (updateViewMode ViewTableInfo sys)) = tableInfo (store sys).
Proof.
  intros Hstructure. split; [|reflexivity].
  unfold updateViewMode, update, set, subscriber. cbn. rewrite Hstructure.
  destruct (outdatedDatabaseList (store sys)); cbn;
    destruct (bool_decide _); [|destruct (truthy_table _)| |destruct (truthy_table _)];
    cbn; rewrite ?app_nil_r; reflexivity.
Qed.

Lemma tableInfo_view_with_structure_loaded_witness :
  pending
    (updateViewMode ViewTableInfo
       (with_store
          (set_currentStructure (Some (Structure.mk 1 "t" [] [] [] []))
             (set_selectedDatabaseTable (TName "t") (set_selectedDatabase 1 initialState)))
          initialSys))
  = [].
Proof.
  exact (proj1 (tableInfo_view_with_structure_loaded
                  (with_store
                     (set_currentStructure (Some (Structure.mk 1 "t" [] [] [] []))
                        (set_selectedDatabaseTable (TName "t")
                           (set_selectedDatabase 1 initialState)))
                     initialSys)
                  (Structure.mk 1 "t" [] [] [] []) eq_refl)).
Defined.

(** ** A list of databases that cannot be reloaded *)

Lemma subscriber_no_list (newState previousState : DatabasesPluginState) :
  outdatedDatabaseList previousState = true ->
  ReqDatabaseList ∉ subscriber newState previousState.
Proof.
  intros Hprev Hin. unfold subscriber in Hin. rewrite Hprev in Hin. cbn in Hin.
  rewrite app_nil_r in Hin.
  destruct (bool_decide _); [inversion Hin|].
  destruct (truthy_table _); [|inversion Hin].
  revert Hin.
  destruct (viewMode newState), (currentPage newState), (currentStructure newState);
    cbn; not_among.
Qed.

Lemma listStuck_set (v : DatabasesPluginState) (sys : Sys) :
  listStuck sys -> outdatedDatabaseList v = true -> listStuck (set v sys).
Proof.
  intros [Hout Hpending] Hv. split; [exact Hv|].
  unfold set. cbn. intros Hin. apply elem_of_app in Hin.
  destruct Hin as [Hin|Hin]; [exact (Hpending Hin)|].
  exact (subscriber_no_list _ _ Hout Hin).
Qed.

Lemma listStuck_update (recipe : DatabasesPluginState -> DatabasesPluginState) (sys : Sys) :
  listStuck sys ->
  outdatedDatabaseList (recipe (store sys)) = true ->
  listStuck (update recipe sys).
Proof. intros Hstuck Hrecipe. apply listStuck_set; assumption. Qed.

Lemma listStuck_settled (i : nat) (sys : Sys) : listStuck sys -> listStuck (settled i sys).
Proof.
  intros [Hout Hpending]. split; [exact Hout|].
  cbn. intros Hin. apply Hpending.
  eapply list_elem_of_delete_inv. exact Hin.
Qed.

Lemma listStuck_execute (text : string) (timeBefore : Z) (now : string) (sys : Sys) :
  listStuck sys -> listStuck (execute text timeBefore now sys).2.
Proof.
  intros [Hout Hpending]. unfold execute.
  assert (Hsent : listStuck
            (send (ReqExecute (selectedDatabase (store sys)) text timeBefore) sys)).
  { split; [exact Hout|]. cbn. intros Hin. apply elem_of_app in Hin.
    destruct Hin as [Hin|Hin]; [exact (Hpending Hin)|].
    apply list_elem_of_singleton in Hin. discriminate Hin. }
  destruct (query (store (send _ sys))) as [r|];
    [destruct (bool_decide (r ∈ _)); [exact Hsent|]|];
    cbn; apply listStuck_update; first [exact Hsent | exact Hout].
Qed.

Lemma execute_outdated (text : string) (timeBefore : Z) (now : string) (sys : Sys) :
  outdatedDatabaseList (store (execute text timeBefore now sys).2)
  = outdatedDatabaseList (store sys).
Proof.
  unfold execute. cbn. destruct (query (store sys)) as [r|]; [|reflexivity].
  destruct (bool_decide (r ∈ frozen sys)); reflexivity.
Qed.

Section Stuck.

Variable convertStringToValue : TypeMap -> string -> option string -> Value.
Variable constructUpdateQuery :
  TableSel -> list (string * Cell Value) -> list (string * Value) -> string.

Lemma listStuck_step (sys : Sys) (ev : Event) :
  listStuck sys -> ev <> Connect ->
  listStuck (step convertStringToValue constructUpdateQuery sys ev).
Proof.
  intros Hstuck Hev. pose proof Hstuck as [Hout Hpending].
  destruct ev; try congruence;
    try (erewrite step_ended by reflexivity).
  - unfold step, dispatch, updateSelectedDatabase.
    destruct (js_index (databases (store sys)) (database - 1)); cbn; [|exact Hstuck].
    apply listStuck_set; [exact Hstuck|exact Hout].
  - apply listStuck_set; [exact Hstuck|exact Hout].
  - apply listStuck_update; [exact Hstuck|exact Hout].
  - apply listStuck_update; [exact Hstuck|exact Hout].
  - apply listStuck_update; [exact Hstuck|exact Hout].
  - unfold goToRow. destruct (currentPage (store sys)); [|exact Hstuck].
    apply listStuck_update; [exact Hstuck|exact Hout].
  - apply listStuck_update; [exact Hstuck|reflexivity].
  - apply listStuck_set; [exact Hstuck|exact Hout].
  - unfold updateQuery. apply listStuck_set; [exact Hstuck|exact Hout].
  - unfold step, dispatch. apply listStuck_execute. exact Hstuck.
  - unfold updateFavorites.
    destruct (query (store sys) ≫= (heap sys !!.)) as [q|]; cbn;
      try destruct (includes _ (Query.value q)); cbn;
      try destruct (favoritesFrozen sys); exact Hstuck.
  - unfold step, dispatch, onRowEdited.
    destruct (rowEdit convertStringToValue constructUpdateQuery change (store sys))
      as [[| message | statement page]|e]; cbn; try exact Hstuck.
    pose proof (listStuck_execute statement timeBefore now sys Hstuck) as Hexecuted.
    pose proof (execute_outdated statement timeBefore now sys) as Hsame.
    destruct (execute statement timeBefore now sys) as [[[]|e] executed]; cbn in *;
      [|exact Hexecuted].
    apply listStuck_update; [exact Hexecuted|].
    cbn. rewrite Hsame. exact Hout.
  - unfold step, dispatch.
    destruct (pending sys !! i) as [r|] eqn:Hr; [|exact Hstuck].
    pose proof (listStuck_settled i sys Hstuck) as Hsettled.
    destruct r.
    + exfalso. apply Hpending. eapply list_elem_of_lookup_2. exact Hr.
    + destruct resp; cbn; try exact Hsettled.
      apply listStuck_update; [exact Hsettled|exact Hout].
    + destruct resp; cbn; try exact Hsettled.
      apply listStuck_update; [exact Hsettled|exact Hout].
    + destruct resp; cbn; try exact Hsettled.
      apply listStuck_update; [exact Hsettled|exact Hout].
    + assert (Hfirst : listStuck
                (update (fun state =>
                           set_executionTime (now - timeBefore) (set_error None state))
                   (settled i sys))).
      { apply listStuck_update; [exact Hsettled|exact Hout]. }
      destruct resp; cbn; try exact Hfirst;
        first [apply listStuck_update | apply listStuck_set];
        first [exact Hfirst | exact Hout].
  - unfold step, dispatch.
    destruct (pending sys !! i) as [r|] eqn:Hr; [|exact Hstuck].
    pose proof (listStuck_settled i sys Hstuck) as Hsettled.
    destruct r; cbn; try exact Hsettled;
      apply listStuck_update; first [exact Hsettled | exact Hout].
Qed.

End Stuck.

(** X10.  While the list of databases is marked outdated and no request for it is
    outstanding, nothing but a new connection requests it: after any events
    other than [Connect], [refresh] included, the list is still marked
    outdated and still not requested.  This is the state the plugin is in when
    the request sent at connection fails, or when its answer makes
    [updateDatabases] throw. *)
Theorem database_list_stays_outdated
    (convertStringToValue : TypeMap -> string -> option string -> Value)
    (constructUpdateQuery :
       TableSel -> list (string * Cell Value) -> list (string * Value) -> string)
    (sys : Sys) (trace : list Event) :
  listStuck sys ->
  Connect ∉ trace ->
  listStuck (run convertStringToValue constructUpdateQuery sys trace).
Proof.
  revert sys. induction trace as [|ev rest IH]; intros sys Hstuck Hno; [exact Hstuck|].
  cbn. apply IH.
  - apply listStuck_step; [exact Hstuck|].
    intros ->. apply Hno, list_elem_of_here.
  - intros Hin. apply Hno, list_elem_of_further, Hin.
Qed.

Lemma database_list_stays_outdated_witness :
  listStuck (replay initialSys [Connect; Resolve 0 (RespDatabaseList []) 0])
  /\ listStuck
       (replay (replay initialSys [Connect; Resolve 0 (RespDatabaseList []) 0])
          [Refresh; UpdateViewMode ViewStructure; Refresh]).
Proof.
  assert (Hstuck : listStuck (replay initialSys [Connect; Resolve 0 (RespDatabaseList []) 0])).
  { split; [reflexivity|]. vm_compute. intros Hin. inversion Hin. }
  split; [exact Hstuck|].
  apply (database_list_stays_outdated
           (fun _ _ _ => VNull) (fun _ _ _ => EmptyString)
           (replay initialSys [Connect; Resolve 0 (RespDatabaseList []) 0])
           [Refresh; UpdateViewMode ViewStructure; Refresh] Hstuck).
  intros Hin.
  repeat (apply elem_of_cons in Hin; destruct Hin as [Hin|Hin]; [discriminate Hin|]).
  inversion Hin.
Defined.

(** ** Failures, refreshing and selecting a database *)

(** X11.  The failure of a fetch is itself a change of the state.  In the data view
    with a table selected and no page loaded, the failure of any outstanding
    fetch with a new error sets the error and at once requests the page
    again (and the structure, if none is loaded). *)
Theorem fetch_failure_requests_page_again
    (convertStringToValue : TypeMap -> string -> option string -> Value)
    (constructUpdateQuery :
       TableSel -> list (string * Cell Value) -> list (string * Value) -> string)
    (sys : Sys) (i : nat) (r : Request) (e : Err) (table : string) :
  pending sys !! i = Some r ->
  r <> ReqDatabaseList ->
  error (store sys) <> Some e ->
  viewMode (store sys) = ViewData ->
  currentPage (store sys) = None ->
  selectedDatabase (store sys) <> 0 ->
  selectedDatabaseTable (store sys) = TName table ->
  table <> EmptyString ->
  let state := store sys in
  let sys' := step convertStringToValue constructUpdateQuery sys (Reject i e) in
  error (store sys') = Some e
  /\ currentPage (store sys') = None
  /\ pending sys'
     = delete i (pending sys)
       ++ [ReqGetTableData 50 (selectedDatabase state) (SortOrder.key <$> currentSort state)
             (match currentSort state with
              | Some o => match SortOrder.direction o with down => true | up => false end
              | None => false
              end)
             table (pageRowNumber state)]
       ++ match currentStructure state with
          | None => [ReqGetTableStructure (selectedDatabase state) table]
          | Some _ => []
          end.
Proof.
  intros Hr Hlist _ Hview Hpage Hd Ht Hne. cbv zeta.
  unfold step, dispatch. rewrite Hr. cbn.
  assert (Hreject : reject r e (settled i sys) = update (set_error (Some e)) (settled i sys)).
  { destruct r; try reflexivity. congruence. }
  rewrite Hreject. cbn. split; [reflexivity|]. split; [exact Hpage|].
  rewrite (subscriber_selected _ _ table) by assumption. cbn.
  rewrite Hview, Hpage. cbn.
  destruct (currentStructure (store sys)), (outdatedDatabaseList (store sys)); reflexivity.
Qed.

Lemma fetch_failure_requests_page_again_witness :
  pending
    (replay
       (replay initialSys
          [Connect; Resolve 0 (RespDatabaseList [DatabaseEntry.mk 1 "main" ["T1"%string]]) 0])
       [Reject 0 "timeout"%string])
  = [ReqGetTableStructure 1 "T1"; ReqGetTableData 50 1 None false "T1" 0;
     ReqGetTableStructure 1 "T1"].
Proof.
  exact (proj2 (proj2
           (fetch_failure_requests_page_again
              (fun _ _ _ => VNull) (fun _ _ _ => EmptyString)
              (replay initialSys
                 [Connect;
                  Resolve 0 (RespDatabaseList [DatabaseEntry.mk 1 "main" ["T1"%string]]) 0])
              0%nat (ReqGetTableData 50 1 None false "T1" 0) "timeout"%string "T1"%string
              eq_refl ltac:(discriminate) ltac:(discriminate) eq_refl eq_refl
              ltac:(discriminate) eq_refl ltac:(discriminate)))).
Defined.

(** X12.  [onRefreshClicked] clears the error, marks the list of databases outdated
    and drops the page; the structure, the selection, the row number and the
    sort order stay.  It requests the list of databases exactly when the list
    was not marked outdated before. *)
Theorem onRefreshClicked_effect (sys : Sys) :
  let state := store sys in
  let state' := store (onRefreshClicked sys) in
  error state' = None
  /\ outdatedDatabaseList state' = true
  /\ currentPage state' = None
  /\ currentStructure state' = currentStructure state
  /\ selectedDatabase state' = selectedDatabase state
  /\ selectedDatabaseTable state' = selectedDatabaseTable state
  /\ pageRowNumber state' = pageRowNumber state
  /\ currentSort state' = currentSort state
  /\ exists issued,
      pending (onRefreshClicked sys) = pending sys ++ issued
      /\ (ReqDatabaseList ∈ issued <-> outdatedDatabaseList state = false).
Proof.
  cbv zeta. repeat (split; [reflexivity|]).
  unfold onRefreshClicked, refresh, update, set. cbn.
  eexists. split; [rewrite <- app_assoc; reflexivity|].
  unfold subscriber. cbn.
  destruct (outdatedDatabaseList (store sys)); cbn.
  - rewrite !app_nil_r. split; [|discriminate].
    intros Hin. exfalso. revert Hin.
    destruct (bool_decide _); [not_among|].
    destruct (truthy_table _); [|not_among].
    destruct (viewMode (store sys)), (currentPage (store sys)),
      (currentStructure (store sys)); cbn; not_among.
  - split; [reflexivity|]. intros _.
    apply elem_of_app. right. apply elem_of_app. right. apply list_elem_of_here.
Qed.

Lemma findDatabaseId_absent (databases : list DatabaseEntry.t) (selected : string) :
  (forall e, e ∈ databases -> DatabaseEntry.name e <> selected) ->
  findDatabaseId databases selected = 0.
Proof.
  unfold findDatabaseId. intros Hnone.
  destruct (List.find _ databases) as [x|] eqn:Hfind; [|reflexivity].
  apply List.find_some in Hfind. destruct Hfind as [Hin Hname].
  apply bool_decide_eq_true in Hname.
  exfalso. apply (Hnone x); [apply list_elem_of_In; exact Hin|exact Hname].
Qed.

(** X13.  [onDatabaseSelected] with a name no database of the list has looks up id
    0, reads the entry before the first and throws.  With the name of a
    database it reads the entry at the position of that database's id: it
    throws if there is none, and else selects the id with the first table of
    the entry read (null for no table or an empty name), at row 0 with no
    page, structure or sort order. *)
Theorem onDatabaseSelected_effect (selected : string) (sys : Sys) :
  ((forall e, e ∈ databases (store sys) -> DatabaseEntry.name e <> selected) ->
   onDatabaseSelected selected sys = Thrown TypeError)
  /\ match List.find (fun x => bool_decide (DatabaseEntry.name x = selected))
             (databases (store sys)) with
     | None => onDatabaseSelected selected sys = Thrown TypeError
     | Some found =>
         match js_index (databases (store sys)) (DatabaseEntry.id found - 1) with
         | None => onDatabaseSelected selected sys = Thrown TypeError
         | Some entry =>
             exists sys',
               onDatabaseSelected selected sys = Returned sys'
               /\ selectedDatabase (store sys') = DatabaseEntry.id found
               /\ selectedDatabaseTable (store sys')
                  = match DatabaseEntry.tables entry with
                    | t :: _ => if bool_decide (t = EmptyString) then TNull else TName t
                    | [] => TNull
                    end
               /\ pageRowNumber (store sys') = 0
               /\ currentPage (store sys') = None
               /\ currentStructure (store sys') = None
               /\ currentSort (store sys') = None
               /\ databases (store sys') = databases (store sys)
         end
     end.
Proof.
  split.
  - intros Hnone. unfold onDatabaseSelected.
    rewrite (findDatabaseId_absent _ _ Hnone). reflexivity.
  - unfold onDatabaseSelected, findDatabaseId, updateSelectedDatabase.
    destruct (List.find _ (databases (store sys))) as [found|]; [|reflexivity].
    destruct (js_index (databases (store sys)) (DatabaseEntry.id found - 1))
      as [entry|]; [|reflexivity].
    cbn. eexists. split; [reflexivity|]. repeat split.
Qed.

(** ** What is shown for a query result *)

(** X14.  After the answer of a query, [renderQuery] shows the table of a select
    (without sidebar, no row being highlighted), the id of an inserted row
    unless that id is 0, and the number of rows affected unless that number
    is 0: for an id 0 or a count 0 it shows nothing. *)
Theorem renderQuery_after_answer (sys : Sys) :
  (forall columns values,
      renderQuery (queryResult (store (displaySelect columns values sys)))
      = TableShown (QueriedTable.mk columns values []) None)
  /\ (forall id,
         renderQuery (queryResult (store (displayInsert id sys)))
         = if bool_decide (id = 0) then NothingShown else RowIdShown id)
  /\ (forall count,
         renderQuery (queryResult (store (displayUpdateDelete count sys)))
         = if bool_decide (count = 0) then NothingShown else RowsAffectedShown count)
  /\ renderQuery (queryResult initialState) = NothingShown.
Proof.
  split; [|split; [|split]]; try reflexivity.
  - intros id. cbn. destruct (bool_decide (id = 0)); reflexivity.
  - intros count. cbn. destruct (bool_decide (count = 0)); reflexivity.
Qed.

(** ** Executing from the editor and from a row edit *)

(** X15.  [onExecuteClicked] does nothing without a query object in the buffer.
    With one, it sends one request with the text of the buffer for the
    selected database, be that database 0.  When the query object is not
    frozen the call returns and the history gets that text.  When the object
    is frozen, as it is from the first [update] of the store after the text
    was typed, the call throws after sending the request and the history is
    as it was. *)
Theorem onExecuteClicked_sends (timeBefore : Z) (now : string) (sys : Sys) :
  wf sys ->
  match bufferText sys with
  | None => onExecuteClicked timeBefore now sys = (Returned tt, sys)
  | Some text =>
      let clicked := onExecuteClicked timeBefore now sys in
      pending clicked.2 !! length (pending sys)
      = Some (ReqExecute (selectedDatabase (store sys)) text timeBefore)
      /\ if bufferFrozen sys
         then clicked.1 = Thrown TypeError
              /\ historyTexts clicked.2 = historyTexts sys
         else clicked.1 = Returned tt
              /\ historyTexts clicked.2 = historyTexts sys ++ [text]
  end.
Proof.
  intros Hwf. unfold onExecuteClicked.
  pose proof (fun text => execute_history text timeBefore now sys Hwf) as Hhistory.
  pose proof (fun text => execute_throws text timeBefore now sys) as Hthrows.
  unfold bufferText in *.
  destruct (query (store sys) ≫= (heap sys !!.)) as [q|]; cbn in *; [|reflexivity].
  split; [apply execute_pending|].
  specialize (Hhistory (Query.value q)). specialize (Hthrows (Query.value q)).
  destruct Hhistory as [_ Hhistory].
  destruct (bufferFrozen sys); split; try exact Hthrows.
  - rewrite Hhistory. apply app_nil_r.
  - exact Hhistory.
Qed.

Lemma onExecuteClicked_sends_witness :
  let typed := updateQuery "select 1" "10:00:00" initialSys in
  let clicked := onExecuteClicked 7 "10:00:01" typed in
  let again := onExecuteClicked 9 "10:00:02" clicked.2 in
  wf typed /\ wf clicked.2
  /\ pending clicked.2 = [ReqExecute 0 "select 1" 7]
  /\ clicked.1 = Returned tt
  /\ historyTexts clicked.2 = ["select 1"%string]
  /\ pending again.2 = [ReqExecute 0 "select 1" 7; ReqExecute 0 "select 1" 9]
  /\ again.1 = Thrown TypeError
  /\ historyTexts again.2 = ["select 1"%string].
Proof.
  cbv zeta.
  assert (Htyped : wf (updateQuery "select 1" "10:00:00" initialSys)).
  { apply updateQuery_history, wf_initialSys. }
  assert (Hclicked : wf (onExecuteClicked 7 "10:00:01"
                           (updateQuery "select 1" "10:00:00" initialSys)).2).
  { apply (execute_history "select 1" 7 "10:00:01" _ Htyped). }
  split; [exact Htyped|]. split; [exact Hclicked|].
  destruct (onExecuteClicked_sends 7 "10:00:01" _ Htyped) as (_ & Hreturned & Hfirst).
  destruct (onExecuteClicked_sends 9 "10:00:02" _ Hclicked) as (_ & Hthrown & Hsecond).
  split; [reflexivity|]. split; [exact Hreturned|]. split; [exact Hfirst|].
  split; [reflexivity|]. split; [exact Hthrown|]. exact Hsecond.
Defined.

(** X16.  A row edit that passes its checks sends its UPDATE statement in any
    case.  When the query object of the buffer is not frozen, the handler
    returns, the patched page is stored, and what the history gets is not the
    statement: it is the text of the query buffer, if the buffer has a query
    object, and nothing otherwise.  When the query object of the buffer is
    frozen, [execute] throws after sending the request: the handler ends
    there, the page of the state is the page as it was, and the history is as
    it was. *)
Theorem row_edit_sends_statement
    (convertStringToValue : TypeMap -> string -> option string -> Value)
    (constructUpdateQuery :
       TableSel -> list (string * Cell Value) -> list (string * Value) -> string)
    (change : list (string * option string)) (timeBefore : Z) (now : string)
    (sys : Sys) (statement : string) (page : Page.t) :
  wf sys ->
  rowEdit convertStringToValue constructUpdateQuery change (store sys)
  = Returned (EditEmitted statement page) ->
  let edited := onRowEdited convertStringToValue constructUpdateQuery
                  change timeBefore now sys in
  step convertStringToValue constructUpdateQuery sys (RowEdited change timeBefore now)
  = edited.2
  /\ pending edited.2 !! length (pending sys)
     = Some (ReqExecute (selectedDatabase (store sys)) statement timeBefore)
  /\ if bufferFrozen sys
     then edited.1 = Thrown TypeError
          /\ currentPage (store edited.2) = currentPage (store sys)
          /\ historyTexts edited.2 = historyTexts sys
     else edited.1 = Returned tt
          /\ currentPage (store edited.2) = Some page
          /\ historyTexts edited.2 = historyTexts sys ++ option_list (bufferText sys).
Proof.
  intros Hwf Hedit. cbv zeta. split; [reflexivity|].
  unfold onRowEdited. rewrite Hedit.
  pose proof (execute_pending statement timeBefore now sys) as Hsent.
  pose proof (execute_throws statement timeBefore now sys) as Hthrows.
  destruct (execute_history statement timeBefore now sys Hwf) as [_ Hhistory].
  pose proof (execute_keeps_page statement timeBefore now sys) as Hpage.
  destruct (execute statement timeBefore now sys) as [c executed]. cbn in *.
  destruct (bufferFrozen sys); subst c; cbn.
  - split; [exact Hsent|]. split; [reflexivity|]. split; [exact Hpage|].
    rewrite Hhistory. apply app_nil_r.
  - split.
    + rewrite lookup_app_l; [exact Hsent|].
      eapply lookup_lt_Some. exact Hsent.
    + split; [reflexivity|]. split; [reflexivity|]. exact Hhistory.
Qed.

Lemma row_edit_sends_statement_witness :
  let editing :=
    with_store
      (set_currentStructure
         (Some (Structure.mk 1 "users" ["column_name"; "data_type"; "primary_key"]%string
                  [[Some (VString "id"); Some (VString "INTEGER"); Some (VBoolean true)]]
                  [] []))
         (set_currentPage
            (Some (Page.mk 1 "users" ["id"; "name"]%string
                     [[Some (VNumber 7); Some (VString "Al")]] 0 1 1 [0]))
            (set_selectedDatabaseTable (TName "users")
               (set_selectedDatabase 1 initialState))))
      initialSys in
  let edited :=
    onRowEdited (fun _ _ value => default VNull (VString <$> value))
      (fun _ _ _ => "UPDATE users SET name = 'Bob' WHERE id = 7"%string)
      [("name"%string, Some "Bob"%string)] 3 "10:00:00" editing in
  wf editing
  /\ pending edited.2 !! 0%nat
     = Some (ReqExecute 1 "UPDATE users SET name = 'Bob' WHERE id = 7" 3)
  /\ edited.1 = Returned tt
  /\ currentPage (store edited.2)
     = Some (Page.mk 1 "users" ["id"; "name"]%string
               [[Some (VNumber 7); Some (VString "Bob")]] 0 1 1 [0])
  /\ historyTexts edited.2 = [].
Proof.
  cbv zeta. split; [exact wf_initialSys|].
  destruct (row_edit_sends_statement
              (fun _ _ value => default VNull (VString <$> value))
              (fun _ _ _ => "UPDATE users SET name = 'Bob' WHERE id = 7"%string)
              [("name"%string, Some "Bob"%string)] 3 "10:00:00"
              (with_store
                 (set_currentStructure
                    (Some (Structure.mk 1 "users"
                             ["column_name"; "data_type"; "primary_key"]%string
                             [[Some (VString "id"); Some (VString "INTEGER");
                               Some (VBoolean true)]]
                             [] []))
                    (set_currentPage
                       (Some (Page.mk 1 "users" ["id"; "name"]%string
                                [[Some (VNumber 7); Some (VString "Al")]] 0 1 1 [0]))
                       (set_selectedDatabaseTable (TName "users")
                          (set_selectedDatabase 1 initialState))))
                 initialSys)
              _ _ wf_initialSys eq_refl) as (_ & Hsent & Hreturned & Hpage & Hhistory).
  split; [exact Hsent|]. split; [exact Hreturned|]. split; [exact Hpage|exact Hhistory].
Defined.

(** A row edit on a buffer that was executed before: the statement is sent,
    the handler throws, and neither the page nor the history changes. *)
Example row_edit_on_frozen_buffer :
  let typed :=
    updateQuery "select 1" "10:00:00"
      (with_store
         (set_currentStructure
            (Some (Structure.mk 1 "users" ["column_name"; "data_type"; "primary_key"]%string
                     [[Some (VString "id"); Some (VString "INTEGER"); Some (VBoolean true)]]
                     [] []))
            (set_currentPage
               (Some (Page.mk 1 "users" ["id"; "name"]%string
                        [[Some (VNumber 7); Some (VString "Al")]] 0 1 1 [0]))
               (set_viewMode ViewData
                  (set_selectedDatabaseTable (TName "users")
                     (set_selectedDatabase 1 initialState)))))
         initialSys) in
  let executed := (execute "select 1" 1 "10:00:01" typed).2 in
  let edited :=
    onRowEdited (fun _ _ value => default VNull (VString <$> value))
      (fun _ _ _ => "UPDATE users SET name = 'Bob' WHERE id = 7"%string)
      [("name"%string, Some "Bob"%string)] 3 "10:00:02" executed in
  edited.1 = Thrown TypeError
  /\ pending edited.2
     = pending executed ++ [ReqExecute 1 "UPDATE users SET name = 'Bob' WHERE id = 7" 3]
  /\ currentPage (store edited.2) = currentPage (store executed)
  /\ historyTexts executed = ["select 1"%string]
  /\ historyTexts edited.2 = ["select 1"%string].
Proof. vm_compute. repeat split. Qed.

(** ** What a row edit changes *)

Lemma patchCell_frame (h : Z) (draft : Page.t) (kv : string * Value) :
  let patched := patchCell h draft kv in
  Page.databaseId patched = Page.databaseId draft
  /\ Page.table patched = Page.table draft
  /\ Page.columns patched = Page.columns draft
  /\ Page.start patched = Page.start draft
  /\ Page.count patched = Page.count draft
  /\ Page.total patched = Page.total draft
  /\ Page.highlightedRows patched = Page.highlightedRows draft
  /\ length (Page.rows patched) = length (Page.rows draft)
  /\ forall j, j <> Z.to_nat h -> Page.rows patched !! j = Page.rows draft !! j.
Proof.
  cbv zeta. unfold patchCell. case_bool_decide; cbn.
  - repeat (split; [reflexivity|]). split; [apply length_alter|].
    intros j Hj. apply list_lookup_alter_ne. congruence.
  - repeat split.
Qed.

Lemma patch_frame (h : Z) (changeValue : list (string * Value)) (draft : Page.t) :
  let patched := foldl (patchCell h) draft changeValue in
  Page.databaseId patched = Page.databaseId draft
  /\ Page.table patched = Page.table draft
  /\ Page.columns patched = Page.columns draft
  /\ Page.start patched = Page.start draft
  /\ Page.count patched = Page.count draft
  /\ Page.total patched = Page.total draft
  /\ Page.highlightedRows patched = Page.highlightedRows draft
  /\ length (Page.rows patched) = length (Page.rows draft)
  /\ forall j, j <> Z.to_nat h -> Page.rows patched !! j = Page.rows draft !! j.
Proof.
  cbv zeta. revert draft.
  induction changeValue as [|kv rest IH]; intros draft; cbn; [repeat split|].
  destruct (IH (patchCell h draft kv)) as (H1 & H2 & H3 & H4 & H5 & H6 & H7 & H8 & H9).
  destruct (patchCell_frame h draft kv) as (G1 & G2 & G3 & G4 & G5 & G6 & G7 & G8 & G9).
  rewrite H1, H2, H3, H4, H5, H6, H7, H8, G1, G2, G3, G4, G5, G6, G7, G8.
  repeat (split; [reflexivity|]).
  intros j Hj. rewrite H9, G9 by exact Hj. reflexivity.
Qed.

(** X17.  The page a row edit stores is the page of the state with cells of the
    highlighted row replaced: its database id, table, columns, window and
    highlighted rows are the same, it has as many rows, and every row but the
    highlighted one is as it was. *)
Theorem row_edit_patches_highlighted_row
    (convertStringToValue : TypeMap -> string -> option string -> Value)
    (constructUpdateQuery :
       TableSel -> list (string * Cell Value) -> list (string * Value) -> string)
    (change : list (string * option string)) (state : DatabasesPluginState)
    (statement : string) (page : Page.t) :
  rowEdit convertStringToValue constructUpdateQuery change state
  = Returned (EditEmitted statement page) ->
  exists current h,
    currentPage state = Some current
    /\ Page.highlightedRows current = h :: tail (Page.highlightedRows current)
    /\ 0 <= h
    /\ Page.databaseId page = Page.databaseId current
    /\ Page.table page = Page.table current
    /\ Page.columns page = Page.columns current
    /\ Page.start page = Page.start current
    /\ Page.count page = Page.count current
    /\ Page.total page = Page.total current
    /\ Page.highlightedRows page = Page.highlightedRows current
    /\ length (Page.rows page) = length (Page.rows current)
    /\ forall j, j <> Z.to_nat h -> Page.rows page !! j = Page.rows current !! j.
Proof.
  intros H. unfold rowEdit in H.
  destruct (currentPage state) as [current|] eqn:Hcurrent.
  2:{ destruct (viewMode state), (selectedDatabaseTable state),
        (currentStructure state), change; discriminate. }
  exists current.
  destruct (Page.highlightedRows current) as [|h others] eqn:Hrows; cbn in H.
  { destruct (viewMode state), (selectedDatabaseTable state),
      (currentStructure state), change; discriminate. }
  exists h. split; [reflexivity|]. split; [reflexivity|].
  case_bool_decide as Hh.
  2:{ destruct (viewMode state), (selectedDatabaseTable state),
        (currentStructure state), change; discriminate. }
  split; [lia|].
  repeat match type of H with
         | context [match ?x with _ => _ end] =>
             lazymatch x with
             | primaryKeyNames _ _ _ _ => fail
             | columnTypes _ _ _ _ _ => fail
             | _ => destruct x eqn:?; try discriminate
             end
         end.
  all: destruct (primaryKeyNames _ _ _ _) as [names|]; cbn in H; [|discriminate].
  all: destruct (bool_decide (_ <= 0)%nat); [discriminate|].
  all: destruct (columnTypes _ _ _ _ _) as [types|]; cbn in H; [|discriminate].
  all: injection H as _ <-.
  all: rewrite <- Hrows; apply patch_frame.
Qed.

Lemma row_edit_patches_highlighted_row_witness :
  exists current h,
    currentPage
      (set_currentStructure
         (Some (Structure.mk 1 "users" ["column_name"; "data_type"; "primary_key"]%string
                  [[Some (VString "id"); Some (VString "INTEGER"); Some (VBoolean true)]]
                  [] []))
         (set_currentPage
            (Some (Page.mk 1 "users" ["id"; "name"]%string
                     [[Some (VNumber 6); Some (VString "Al")];
                      [Some (VNumber 7); Some (VString "Bo")]] 0 2 2 [1]))
            (set_selectedDatabaseTable (TName "users")
               (set_selectedDatabase 1 initialState))))
    = Some current
    /\ h = 1
    /\ Page.rows
         (Page.mk 1 "users" ["id"; "name"]%string
            [[Some (VNumber 6); Some (VString "Al")];
             [Some (VNumber 7); Some (VString "Bob")]] 0 2 2 [1]) !! 0%nat
       = Page.rows current !! 0%nat.
Proof.
  destruct (row_edit_patches_highlighted_row
              (fun _ _ value => default VNull (VString <$> value))
              (fun _ _ _ => "UPDATE"%string)
              [("name"%string, Some "Bob"%string)]
              (set_currentStructure
                 (Some (Structure.mk 1 "users"
                          ["column_name"; "data_type"; "primary_key"]%string
                          [[Some (VString "id"); Some (VString "INTEGER");
                            Some (VBoolean true)]]
                          [] []))
                 (set_currentPage
                    (Some (Page.mk 1 "users" ["id"; "name"]%string
                             [[Some (VNumber 6); Some (VString "Al")];
                              [Some (VNumber 7); Some (VString "Bo")]] 0 2 2 [1]))
                    (set_selectedDatabaseTable (TName "users")
                       (set_selectedDatabase 1 initialState))))
              _ _ eq_refl)
    as (current & h & Hcurrent & Hh & _ & _ & _ & _ & _ & _ & _ & _ & _ & Hother).
  exists current, h. split; [exact Hcurrent|].
  injection Hcurrent as <-. injection Hh as <-.
  split; [reflexivity|]. apply Hother. discriminate.
Defined.

Lemma primaryKeyNames_none (rows : list Row) (primaryKeyIdx nameKeyIdx : Z)
    (acc : list string) :
  Forall (fun row => exists v, js_cell row primaryKeyIdx = Some v /\ v <> VBoolean true) rows ->
  primaryKeyNames rows primaryKeyIdx nameKeyIdx acc = Returned acc.
Proof.
  induction 1 as [|row rest (v & Hcell & Hv) _ IH]; [reflexivity|].
  cbn. rewrite Hcell. cbn.
  destruct v as [|[|]| | | | |]; cbn; try exact IH. congruence.
Qed.

(** X18.  A table without a primary key is not edited: when the structure has a
    [primary_key] column and no row of it marks a primary key, a row edit
    sends nothing, stores nothing and logs nothing. *)
Theorem row_edit_without_primary_key
    (convertStringToValue : TypeMap -> string -> option string -> Value)
    (constructUpdateQuery :
       TableSel -> list (string * Cell Value) -> list (string * Value) -> string)
    (change : list (string * option string)) (timeBefore : Z) (now : string)
    (sys : Sys) (structure : Structure.t) :
  currentStructure (store sys) = Some structure ->
  0 <= indexOf (Structure.columns structure) "primary_key" ->
  Forall (fun row =>
            exists v, js_cell row (indexOf (Structure.columns structure) "primary_key")
                      = Some v /\ v <> VBoolean true)
    (Structure.rows structure) ->
  rowEdit convertStringToValue constructUpdateQuery change (store sys)
  = Returned EditIgnored
  /\ step convertStringToValue constructUpdateQuery sys (RowEdited change timeBefore now)
     = sys.
Proof.
  intros Hstructure Hidx Hrows.
  assert (Hedit : rowEdit convertStringToValue constructUpdateQuery change (store sys)
                  = Returned EditIgnored).
  { unfold rowEdit. rewrite Hstructure.
    rewrite (primaryKeyNames_none _ _ _ _ Hrows).
    rewrite (bool_decide_eq_false_2
               (indexOf (Structure.columns structure) "primary_key" < 0)) by lia.
    cbn.
    repeat match goal with
           | |- context [match ?x with _ => _ end] => destruct x; try reflexivity
           end. }
  split; [exact Hedit|].
  unfold step, dispatch, onRowEdited. rewrite Hedit. reflexivity.
Qed.

Lemma row_edit_without_primary_key_witness :
  rowEdit (fun _ _ value => default VNull (VString <$> value)) (fun _ _ _ => "UPDATE"%string)
    [("name"%string, Some "Bob"%string)]
    (set_currentStructure
       (Some (Structure.mk 1 "log" ["column_name"; "data_type"; "primary_key"]%string
                [[Some (VString "name"); Some (VString "TEXT"); Some (VBoolean false)]]
                [] []))
       (set_currentPage
          (Some (Page.mk 1 "log" ["name"%string] [[Some (VString "Al")]] 0 1 1 [0]))
          (set_selectedDatabaseTable (TName "log") (set_selectedDatabase 1 initialState))))
  = Returned EditIgnored.
Proof.
  refine (proj1 (row_edit_without_primary_key
                   (fun _ _ value => default VNull (VString <$> value))
                   (fun _ _ _ => "UPDATE"%string)
                   [("name"%string, Some "Bob"%string)] 0 "10:00:00"
                   (with_store
                      (set_currentStructure
                         (Some (Structure.mk 1 "log"
                                  ["column_name"; "data_type"; "primary_key"]%string
                                  [[Some (VString "name"); Some (VString "TEXT");
                                    Some (VBoolean false)]]
                                  [] []))
                         (set_currentPage
                            (Some (Page.mk 1 "log" ["name"%string]
                                     [[Some (VString "Al")]] 0 1 1 [0]))
                            (set_selectedDatabaseTable (TName "log")
                               (set_selectedDatabase 1 initialState))))
                      initialSys)
                   _ eq_refl _ _)).
  - vm_compute. discriminate.
  - constructor; [|constructor].
    exists (VBoolean false). split; [reflexivity|discriminate].
Defined.

(** ** The favorites of the state *)

Lemma updateDatabases_keeps_favorites (l : list DatabaseEntry.t) (sys sys' : Sys) :
  updateDatabases l sys = Returned sys' ->
  favorites (store sys') = favorites (store sys).
Proof.
  unfold updateDatabases. intros H.
  destruct (js_index (sort_by_id l) (derivedDatabase (store sys) (sort_by_id l) - 1))
    as [entry|];
    destruct (truthy_table (selectedDatabaseTable (store sys))) as [t|]; cbn in H;
    try discriminate.
  - destruct (includes (DatabaseEntry.tables entry) t); cbn in H;
      injection H as <-; reflexivity.
  - injection H as <-; reflexivity.
Qed.

Lemma resolve_keeps_favorites (r : Request) (resp : Response) (now : Z) (sys sys' : Sys) :
  resolve r resp now sys = Returned sys' ->
  favorites (store sys') = favorites (store sys).
Proof.
  destruct r, resp; cbn; intros H; try (injection H as <-; reflexivity).
  apply updateDatabases_keeps_favorites in H. exact H.
Qed.

Lemma execute_keeps_favorites (text : string) (timeBefore : Z) (now : string) (sys : Sys) :
  favorites (store (execute text timeBefore now sys).2) = favorites (store sys).
Proof.
  unfold execute. cbn.
  destruct (query (store sys)) as [r|]; [destruct (bool_decide (r ∈ frozen sys))|];
    reflexivity.
Qed.

Lemma updateFavorites_shrinks (event : FavoritesArg) (sys : Sys) :
  favorites (store (updateFavorites event sys).2) `sublist_of` favorites (store sys).
Proof.
  unfold updateFavorites.
  destruct event; destruct (query (store sys) ≫= (heap sys !!.)) as [q|]; cbn;
    try destruct (includes _ (Query.value q)); cbn;
    try destruct (favoritesFrozen sys); cbn;
    first [reflexivity | apply sublist_delete].
Qed.

Section Favorites.

Variable convertStringToValue : TypeMap -> string -> option string -> Value.
Variable constructUpdateQuery :
  TableSel -> list (string * Cell Value) -> list (string * Value) -> string.

Lemma step_favorites (sys : Sys) (ev : Event) :
  favorites (store (step convertStringToValue constructUpdateQuery sys ev))
    `sublist_of` favorites (store sys).
Proof.
  destruct ev; try (erewrite step_ended by reflexivity).
  - apply (updateFavorites_shrinks _ (send ReqDatabaseList sys)).
  - unfold step, dispatch, updateSelectedDatabase.
    destruct (js_index (databases (store sys)) (database - 1)); reflexivity.
  - reflexivity.
  - reflexivity.
  - reflexivity.
  - reflexivity.
  - unfold goToRow. destruct (currentPage (store sys)); reflexivity.
  - reflexivity.
  - reflexivity.
  - reflexivity.
  - unfold step, dispatch. rewrite execute_keeps_favorites. reflexivity.
  - apply updateFavorites_shrinks.
  - unfold step, dispatch, onRowEdited.
    destruct (rowEdit convertStringToValue constructUpdateQuery change (store sys))
      as [[| message | statement page]|e]; cbn; try reflexivity.
    pose proof (execute_keeps_favorites statement timeBefore now sys) as Hsame.
    destruct (execute statement timeBefore now sys) as [[[]|e] executed]; cbn in *;
      rewrite Hsame; reflexivity.
  - unfold step, dispatch.
    destruct (pending sys !! i) as [r|]; [|reflexivity].
    destruct (resolve r resp now (settled i sys)) as [sys'|e] eqn:Hres; [|reflexivity].
    apply resolve_keeps_favorites in Hres. cbn. rewrite Hres. reflexivity.
  - unfold step, dispatch.
    destruct (pending sys !! i) as [r|]; [|reflexivity].
    destruct r; reflexivity.
Qed.

End Favorites.

(** X19.  No event adds a favorite to the state: after any trace the favorites of
    the state are what is left of the favorites before, in their order.  The
    state is created with none, so the favorites of an instance stay empty,
    whatever is stored at connection and however often the star is
    clicked. *)
Theorem favorites_never_grow
    (convertStringToValue : TypeMap -> string -> option string -> Value)
    (constructUpdateQuery :
       TableSel -> list (string * Cell Value) -> list (string * Value) -> string)
    (sys : Sys) (stored : option (list string)) (trace : list Event) :
  favorites (store (run convertStringToValue constructUpdateQuery sys trace))
    `sublist_of` favorites (store sys)
  /\ favorites
       (store (run convertStringToValue constructUpdateQuery
                 (with_storage stored initialSys) trace))
     = [].
Proof.
  assert (Hrun : forall sys0,
            favorites (store (run convertStringToValue constructUpdateQuery sys0 trace))
              `sublist_of` favorites (store sys0)).
  { induction trace as [|ev rest IH]; intros sys0; [reflexivity|].
    cbn. etransitivity; [apply IH|]. apply step_favorites. }
  split; [apply Hrun|].
  apply sublist_nil_r. apply (Hrun (with_storage stored initialSys)).
Qed.

(** ** Hit testing of sections *)

Section HitTestFacts.

Import DebugSectionDescriptor.

Variable containedIn : Z -> Z -> Z -> Z -> bool.

Lemma hitSections_spec (children : list Rect) (k : Z) (call : TouchCall) :
  hitSections containedIn children k = call <->
  match call with
  | continueWithOffset index dx dy =>
      dx = 0 /\ dy = 0
      /\ exists n bounds,
          index = k + Z.of_nat n
          /\ children !! n = Some bounds
          /\ contains containedIn bounds = true
          /\ forall m earlier, (m < n)%nat -> children !! m = Some earlier ->
                               contains containedIn earlier = false
  | finish => Forall (fun bounds => contains containedIn bounds = false) children
  end.
Proof.
  revert k. induction children as [|bounds rest IH]; intros k; cbn.
  - destruct call as [index dx dy|].
    + split; [discriminate|]. intros (_ & _ & n & b & _ & Hn & _). destruct n; discriminate.
    + split; [constructor|reflexivity].
  - destruct (contains containedIn bounds) eqn:Hhit.
    + destruct call as [index dx dy|].
      * split.
        -- intros [= <- <- <-]. repeat (split; [reflexivity|]).
           exists 0%nat, bounds. split; [lia|]. split; [reflexivity|].
           split; [exact Hhit|]. intros m earlier Hm. lia.
        -- intros (-> & -> & n & b & -> & Hn & Hb & Hearlier).
           destruct n as [|n]; [f_equal; lia|].
           specialize (Hearlier 0%nat bounds ltac:(lia) eq_refl). congruence.
      * split; [discriminate|]. intros Hall.
        apply Forall_cons in Hall. destruct Hall as [Hb _]. congruence.
    + rewrite IH. destruct call as [index dx dy|].
      * split.
        -- intros (-> & -> & n & b & -> & Hn & Hb & Hearlier).
           repeat (split; [reflexivity|]).
           exists (S n), b. split; [lia|]. split; [exact Hn|]. split; [exact Hb|].
           intros m earlier Hm Hlookup. destruct m as [|m].
           ++ cbn in Hlookup. congruence.
           ++ apply (Hearlier m); [lia|exact Hlookup].
        -- intros (-> & -> & n & b & -> & Hn & Hb & Hearlier).
           repeat (split; [reflexivity|]).
           destruct n as [|n]; [cbn in Hn; congruence|].
           exists n, b. split; [lia|]. split; [exact Hn|]. split; [exact Hb|].
           intros m earlier Hm Hlookup. apply (Hearlier (S m)); [lia|exact Hlookup].
      * split.
        -- intros Hall. constructor; assumption.
        -- intros Hall. apply Forall_cons in Hall. apply Hall.
Qed.

Lemma hitViews_spec (children : list View) (k : Z) (call : TouchCall) :
  hitViews containedIn children k = call <->
  match call with
  | continueWithOffset index dx dy =>
      exists n child,
        index = k + Z.of_nat n
        /\ children !! n = Some child
        /\ contains containedIn (viewBounds child) = true
        /\ dx = left (viewBounds child) /\ dy = top (viewBounds child)
        /\ forall m earlier, (m < n)%nat -> children !! m = Some earlier ->
                             contains containedIn (viewBounds earlier) = false
  | finish =>
      Forall (fun child => contains containedIn (viewBounds child) = false) children
  end.
Proof.
  revert k. induction children as [|child rest IH]; intros k; cbn.
  - destruct call as [index dx dy|].
    + split; [discriminate|]. intros (n & c & _ & Hn & _). destruct n; discriminate.
    + split; [constructor|reflexivity].
  - destruct (contains containedIn (viewBounds child)) eqn:Hhit.
    + destruct call as [index dx dy|].
      * split.
        -- intros [= <- <- <-].
           exists 0%nat, child. split; [lia|]. split; [reflexivity|].
           split; [exact Hhit|]. split; [reflexivity|]. split; [reflexivity|].
           intros m earlier Hm. lia.
        -- intros (n & c & -> & Hn & Hc & -> & -> & Hearlier).
           destruct n as [|n].
           ++ cbn in Hn. injection Hn as <-. f_equal. lia.
           ++ specialize (Hearlier 0%nat child ltac:(lia) eq_refl). congruence.
      * split; [discriminate|]. intros Hall.
        apply Forall_cons in Hall. destruct Hall as [Hc _]. congruence.
    + rewrite IH. destruct call as [index dx dy|].
      * split.
        -- intros (n & c & -> & Hn & Hc & -> & -> & Hearlier).
           exists (S n), c. split; [lia|]. split; [exact Hn|]. split; [exact Hc|].
           split; [reflexivity|]. split; [reflexivity|].
           intros m earlier Hm Hlookup. destruct m as [|m].
           ++ cbn in Hlookup. congruence.
           ++ apply (Hearlier m); [lia|exact Hlookup].
        -- intros (n & c & -> & Hn & Hc & -> & -> & Hearlier).
           destruct n as [|n]; [cbn in Hn; congruence|].
           exists n, c. split; [lia|]. split; [exact Hn|]. split; [exact Hc|].
           split; [reflexivity|]. split; [reflexivity|].
           intros m earlier Hm Hlookup. apply (Hearlier (S m)); [lia|exact Hlookup].
      * split.
        -- intros Hall. constructor; assumption.
        -- intros Hall. apply Forall_cons in Hall. apply Hall.
Qed.

End HitTestFacts.

(** X20.  [hitTest] makes one call on the touch.  It continues with the first
    child, in the order of the children, whose bounds contain the touch: for
    a group section with the index of that child and the offset (0, 0), for a
    diff section with the index of the view and its left and top edge, each
    moved by the view's translation.  It finishes the touch exactly when no
    child contains it. *)
Theorem hitTest_first_hit (containedIn : Z -> Z -> Z -> Z -> bool)
    (node : DebugSectionDescriptor.DebugSection) (call : DebugSectionDescriptor.TouchCall) :
  DebugSectionDescriptor.hitTest containedIn node = call <->
  match node, call with
  | DebugSectionDescriptor.GroupSection children,
    DebugSectionDescriptor.continueWithOffset index dx dy =>
      dx = 0 /\ dy = 0
      /\ exists n bounds,
          index = Z.of_nat n
          /\ children !! n = Some bounds
          /\ DebugSectionDescriptor.contains containedIn bounds = true
          /\ forall m earlier, (m < n)%nat -> children !! m = Some earlier ->
               DebugSectionDescriptor.contains containedIn earlier = false
  | DebugSectionDescriptor.GroupSection children, DebugSectionDescriptor.finish =>
      Forall (fun bounds => DebugSectionDescriptor.contains containedIn bounds = false)
        children
  | DebugSectionDescriptor.DiffSection children,
    DebugSectionDescriptor.continueWithOffset index dx dy =>
      exists n child,
        index = Z.of_nat n
        /\ children !! n = Some child
        /\ DebugSectionDescriptor.contains containedIn
             (DebugSectionDescriptor.viewBounds child) = true
        /\ dx = DebugSectionDescriptor.left (DebugSectionDescriptor.viewBounds child)
        /\ dy = DebugSectionDescriptor.top (DebugSectionDescriptor.viewBounds child)
        /\ forall m earlier, (m < n)%nat -> children !! m = Some earlier ->
             DebugSectionDescriptor.contains containedIn
               (DebugSectionDescriptor.viewBounds earlier) = false
  | DebugSectionDescriptor.DiffSection children, DebugSectionDescriptor.finish =>
      Forall (fun child =>
                DebugSectionDescriptor.contains containedIn
                  (DebugSectionDescriptor.viewBounds child) = false)
        children
  end.
Proof.
  destruct node as [children|children]; cbn.
  - rewrite hitViews_spec. destruct call; reflexivity.
  - rewrite hitSections_spec. destruct call; reflexivity.
Qed.

(** ** Requests that repeat, and the way from the editor to the history *)

(** X21.  The answer of a page fetch that arrives while no structure is loaded
    requests the structure of the selected table again, whether or not a
    request for it is outstanding (and in the table-info view the table
    definition too). *)
Theorem page_answer_requests_structure_again
    (convertStringToValue : TypeMap -> string -> option string -> Value)
    (constructUpdateQuery :
       TableSel -> list (string * Cell Value) -> list (string * Value) -> string)
    (sys : Sys) (i : nat) (count databaseId : Z) (order : option string)
    (reverse : bool) (requested : string) (start : Z)
    (columns : list string) (values : list Row) (start' count' total' now : Z)
    (table : string) :
  pending sys !! i
  = Some (ReqGetTableData count databaseId order reverse requested start) ->
  currentStructure (store sys) = None ->
  selectedDatabase (store sys) <> 0 ->
  selectedDatabaseTable (store sys) = TName table ->
  table <> EmptyString ->
  pending (step convertStringToValue constructUpdateQuery sys
             (Resolve i (RespTableData columns values start' count' total') now))
  = delete i (pending sys)
    ++ [ReqGetTableStructure (selectedDatabase (store sys)) table]
    ++ match viewMode (store sys) with
       | ViewTableInfo => [ReqGetTableInfo (selectedDatabase (store sys)) table]
       | _ => []
       end.
Proof.
  intros Hr Hstructure Hd Ht Hne. unfold step, dispatch. rewrite Hr. cbn.
  rewrite (subscriber_selected _ _ table) by assumption. cbn.
  rewrite Hstructure.
  destruct (viewMode (store sys)), (outdatedDatabaseList (store sys)); reflexivity.
Qed.

Lemma page_answer_requests_structure_again_witness :
  pending
    (replay initialSys
       [Connect; Resolve 0 (RespDatabaseList [DatabaseEntry.mk 1 "main" ["T1"%string]]) 0])
  = [ReqGetTableData 50 1 None false "T1" 0; ReqGetTableStructure 1 "T1"]
  /\ pending
       (replay
          (replay initialSys
             [Connect;
              Resolve 0 (RespDatabaseList [DatabaseEntry.mk 1 "main" ["T1"%string]]) 0])
          [Resolve 0 (RespTableData ["c"%string] [] 0 0 0) 1])
     = [ReqGetTableStructure 1 "T1"; ReqGetTableStructure 1 "T1"].
Proof.
  split; [reflexivity|].
  exact (page_answer_requests_structure_again
           (fun _ _ _ => VNull) (fun _ _ _ => EmptyString)
           (replay initialSys
              [Connect;
               Resolve 0 (RespDatabaseList [DatabaseEntry.mk 1 "main" ["T1"%string]]) 0])
           0%nat 50 1 None false "T1"%string 0 ["c"%string] [] 0 0 0 1 "T1"%string
           eq_refl eq_refl ltac:(discriminate) eq_refl ltac:(discriminate)).
Defined.

(** X22.  What is typed is what is executed and recorded: after [updateQuery] with
    a text, [onExecuteClicked] sends that text for the selected database and
    appends it to the history, whose earlier entries keep their texts.  The
    query object [updateQuery] makes is new and not frozen, so the call
    returns. *)
Theorem typed_query_is_executed (value now : string) (timeBefore : Z) (now' : string)
    (sys : Sys) :
  wf sys ->
  let typed := updateQuery value now sys in
  let sys' := (onExecuteClicked timeBefore now' typed).2 in
  bufferText typed = Some value
  /\ (onExecuteClicked timeBefore now' typed).1 = Returned tt
  /\ pending sys' !! length (pending typed)
     = Some (ReqExecute (selectedDatabase (store sys)) value timeBefore)
  /\ historyTexts sys' = historyTexts sys ++ [value].
Proof.
  intros Hwf. cbv zeta.
  destruct (updateQuery_history value now sys Hwf) as [Hwf' Hsame].
  assert (Hbuffer : bufferText (updateQuery value now sys) = Some value).
  { unfold bufferText, updateQuery. cbn.
    rewrite (list_lookup_middle (heap sys) [] _ _ eq_refl). reflexivity. }
  pose proof (updateQuery_not_frozen value now sys) as Hfresh.
  split; [exact Hbuffer|].
  unfold onExecuteClicked. unfold bufferText in Hbuffer.
  destruct (query (store (updateQuery value now sys))
              ≫= (heap (updateQuery value now sys) !!.)) as [q|] eqn:Hq;
    [|discriminate].
  cbn in Hbuffer. injection Hbuffer as Hvalue. rewrite Hvalue.
  split; [rewrite execute_throws, Hfresh; reflexivity|].
  split; [exact (execute_pending value timeBefore now' (updateQuery value now sys))|].
  destruct (execute_history value timeBefore now' _ Hwf') as [_ Hhistory].
  rewrite Hhistory, Hsame, Hfresh. unfold bufferText. rewrite Hq. cbn. rewrite Hvalue.
  reflexivity.
Qed.

Lemma typed_query_is_executed_witness :
  wf initialSys
  /\ historyTexts
       (onExecuteClicked 7 "10:00:01" (updateQuery "select 1" "10:00:00" initialSys)).2
     = ["select 1"%string].
Proof.
  split; [exact wf_initialSys|].
  exact (proj2 (proj2 (proj2 (typed_query_is_executed
                         "select 1" "10:00:00" 7 "10:00:01" initialSys wf_initialSys)))).
Defined.

Lemma onRowEdited_missing_column_keeps_state_witness :
  step (fun _ _ value => default VNull (VString <$> value)) (fun _ _ _ => "UPDATE"%string)
    (with_store
       (set_currentStructure
          (Some (Structure.mk 1 "users" ["column_name"; "primary_key"]%string
                   [[Some (VString "id"); Some (VBoolean true)]] [] []))
          (set_currentPage
             (Some (Page.mk 1 "users" ["id"; "name"]%string
                      [[Some (VNumber 7); Some (VString "Al")]] 0 1 1 [0]))
             (set_selectedDatabaseTable (TName "users")
                (set_selectedDatabase 1 initialState))))
       initialSys)
    (RowEdited [("name"%string, Some "Bob"%string)] 0 "10:00:00")
  = with_store
      (set_currentStructure
         (Some (Structure.mk 1 "users" ["column_name"; "primary_key"]%string
                  [[Some (VString "id"); Some (VBoolean true)]] [] []))
         (set_currentPage
            (Some (Page.mk 1 "users" ["id"; "name"]%string
                     [[Some (VNumber 7); Some (VString "Al")]] 0 1 1 [0]))
            (set_selectedDatabaseTable (TName "users")
               (set_selectedDatabase 1 initialState))))
      initialSys
  /\ pending
       (step (fun _ _ value => default VNull (VString <$> value))
          (fun _ _ _ => "UPDATE"%string)
          (with_store
             (set_currentStructure
                (Some (Structure.mk 1 "users" ["column_name"; "primary_key"]%string
                         [[Some (VString "id"); Some (VBoolean true)]] [] []))
                (set_currentPage
                   (Some (Page.mk 1 "users" ["id"; "name"]%string
                            [[Some (VNumber 7); Some (VString "Al")]] 0 1 1 [0]))
                   (set_selectedDatabaseTable (TName "users")
                      (set_selectedDatabase 1 initialState))))
             initialSys)
          (RowEdited [("name"%string, Some "Bob"%string)] 0 "10:00:00"))
     = [].
Proof.
  split; [reflexivity|].
  refine (proj1 (proj2 (proj2
            (onRowEdited_missing_column_keeps_state
               (fun _ _ value => default VNull (VString <$> value))
               (fun _ _ _ => "UPDATE"%string)
               [("name"%string, Some "Bob"%string)] 0 "10:00:00"
               (with_store
                  (set_currentStructure
                     (Some (Structure.mk 1 "users" ["column_name"; "primary_key"]%string
                              [[Some (VString "id"); Some (VBoolean true)]] [] []))
                     (set_currentPage
                        (Some (Page.mk 1 "users" ["id"; "name"]%string
                                 [[Some (VNumber 7); Some (VString "Al")]] 0 1 1 [0]))
                        (set_selectedDatabaseTable (TName "users")
                           (set_selectedDatabase 1 initialState))))
                  initialSys)
               _ eq_refl _)))).
  right. right. vm_compute. reflexivity.
Defined.
